(** * openSenseMap API: the users controller

    A shallow embedding of [lib/controllers/usersController.js] and the
    properties of its account life cycle: registration, sign in and sign
    out, password reset, e-mail confirmation and the profile update.

    The handlers are promise chains over the mongoose [User] model, the
    process-wide [tokenBlacklist], and restify's [res] and [next].  They
    are embedded as computations in a small state-and-rejection monad
    ([Promise]); every call made on [res], [next], [Honeybadger] and on a
    document's [save] is appended to a trace kept in the state, so that
    the order of the effects of a handler can be read off its result. *)

From stdpp Require Import base strings gmap list pretty.
From Stdlib Require Import ZArith Lia.

Local Open Scope string_scope.
Local Open Scope Z_scope.
Local Open Scope list_scope.

(** ** JavaScript values *)

(** A request parameter of type [String]: missing ([undefined]) or a string. *)
Definition JsString := option string.

(** Truthiness of a parameter: [undefined] and [''] are falsy. *)
Definition truthy (v : JsString) : bool :=
  match v with
  | Some s => negb (String.eqb s "")
  | None => false
  end.

(** [v !== s] for a parameter [v] and a string [s]. *)
Definition strict_ne (v : JsString) (s : string) : bool :=
  match v with
  | Some s' => negb (String.eqb s' s)
  | None => true
  end.

(** [`${v}`]: the string a parameter turns into inside a template literal. *)
Definition template (v : JsString) : string :=
  match v with
  | Some s => s
  | None => "undefined"
  end.

(** [xs.join(sep)] *)
Definition join (sep : string) (xs : list string) : string :=
  String.concat sep xs.

(** ** The data model *)

(** A document of the [User] collection.  [password] is the path the
    handlers assign to; the model stores its hash there on [save]. *)
Record User := mkUser {
  uid : nat;
  name : string;
  email : string;
  unconfirmedEmail : JsString;
  password : string;
  language : string;
  resetPasswordToken : JsString;
  resetPasswordExpires : option Z;
  emailConfirmationToken : string;
  emailIsConfirmed : bool
}.

Definition set_name (v : string) (u : User) : User :=
  mkUser (uid u) v (email u) (unconfirmedEmail u) (password u) (language u)
         (resetPasswordToken u) (resetPasswordExpires u)
         (emailConfirmationToken u) (emailIsConfirmed u).

Definition set_language (v : string) (u : User) : User :=
  mkUser (uid u) (name u) (email u) (unconfirmedEmail u) (password u) v
         (resetPasswordToken u) (resetPasswordExpires u)
         (emailConfirmationToken u) (emailIsConfirmed u).

Definition set_unconfirmedEmail (v : JsString) (u : User) : User :=
  mkUser (uid u) (name u) (email u) v (password u) (language u)
         (resetPasswordToken u) (resetPasswordExpires u)
         (emailConfirmationToken u) (emailIsConfirmed u).

Definition set_password (v : string) (u : User) : User :=
  mkUser (uid u) (name u) (email u) (unconfirmedEmail u) v (language u)
         (resetPasswordToken u) (resetPasswordExpires u)
         (emailConfirmationToken u) (emailIsConfirmed u).

Definition set_emailConfirmationToken (v : string) (u : User) : User :=
  mkUser (uid u) (name u) (email u) (unconfirmedEmail u) (password u)
         (language u) (resetPasswordToken u) (resetPasswordExpires u)
         v (emailIsConfirmed u).

Definition clear_reset (u : User) : User :=
  mkUser (uid u) (name u) (email u) (unconfirmedEmail u) (password u)
         (language u) None None
         (emailConfirmationToken u) (emailIsConfirmed u).

Definition set_uid (v : nat) (u : User) : User :=
  mkUser v (name u) (email u) (unconfirmedEmail u) (password u)
         (language u) (resetPasswordToken u) (resetPasswordExpires u)
         (emailConfirmationToken u) (emailIsConfirmed u).

Definition set_emailIsConfirmed (v : bool) (u : User) : User :=
  mkUser (uid u) (name u) (email u) (unconfirmedEmail u) (password u)
         (language u) (resetPasswordToken u) (resetPasswordExpires u)
         (emailConfirmationToken u) v.

(** An error a promise is rejected with: [err.message] and, for a mongoose
    validation error, [err.errors], the offending paths with their messages. *)
Record JsError := mkJsError {
  err_message : string;
  err_errors : option (list (string * string))
}.

(** The restify errors the controller hands to [next]. *)
Inductive HttpError :=
| BadRequestError (msg : string)
| ForbiddenError (msg : string)
| UnprocessableEntityError (msg : string)
| InternalServerError (msg : string).

(** The [data] member of a response body. *)
Inductive Data :=
| DataUser (user : User)
| DataMe (me : option User).

(** The object given to [res.send]. *)
Record Body := mkBody {
  code : string;
  message : string;
  data : option Data;
  token : JsString
}.

(** What a handler does that the outside can see, in the order it does it. *)
Inductive Event :=
| EvNext (err : HttpError)
| EvSend (status : Z) (body : Body)
| EvNotify (err : JsError)
| EvSave (doc : User).

(** The state shared by all requests. *)
Record World := mkWorld {
  users : list User;
  blacklist : gset string;
  minted : nat;
  trace : list Event
}.

Definition emit (e : Event) (w : World) : World :=
  mkWorld (users w) (blacklist w) (minted w) (trace w ++ [e]).

Definition set_users (db : list User) (w : World) : World :=
  mkWorld db (blacklist w) (minted w) (trace w).

Definition set_blacklist (b : gset string) (w : World) : World :=
  mkWorld (users w) b (minted w) (trace w).

Definition set_minted (n : nat) (w : World) : World :=
  mkWorld (users w) (blacklist w) n (trace w).

(** ** Promises *)

Inductive Settled (A : Type) :=
| Resolved (a : A)
| Rejected (err : JsError).
Arguments Resolved {A} a.
Arguments Rejected {A} err.

Section Promise.
Context {S : Type}.

Definition Promise (A : Type) : Type := S -> Settled A * S.

Definition resolve {A} (a : A) : Promise A := fun s => (Resolved a, s).

Definition reject {A} (err : JsError) : Promise A := fun s => (Rejected err, s).

(** [p.then(f)] *)
Definition then_ {A B} (p : Promise A) (f : A -> Promise B) : Promise B :=
  fun s =>
    match p s with
    | (Resolved a, s') => f a s'
    | (Rejected err, s') => (Rejected err, s')
    end.

(** [p.catch(h)] *)
Definition catch_ {A} (p : Promise A) (h : JsError -> Promise A) : Promise A :=
  fun s =>
    match p s with
    | (Resolved a, s') => (Resolved a, s')
    | (Rejected err, s') => h err s'
    end.

(** [if (c) { body }] *)
Definition when (c : bool) (body : Promise unit) : Promise unit :=
  if c then body else resolve tt.

Definition get : Promise S := fun s => (Resolved s, s).

Definition modify (f : S -> S) : Promise unit := fun s => (Resolved tt, f s).
End Promise.
Arguments Promise S A : clear implicits.

(** Two statements in a row. *)
Notation "a >> b" := (then_ a (fun _ => b))
  (at level 62, right associativity).

(** ** The collaborators

    The [User] model, its password hashing and the JSON web token signing
    live outside the controller.  The handlers are written against this
    interface; a handler's theorem holds for every implementation of it. *)
Class Models := {
  (** [new User({ name, email, password, language })] *)
  construct : string -> string -> string -> string -> User;
  (** what [doc.save()] does to the collection: the document as stored and
      the collection after it, or the rejection of the promise *)
  persist : User -> list User -> Settled (User * list User);
  (** what [user.checkPassword(plaintext)] settles to *)
  verifyPassword : User -> string -> Settled bool;
  (** [User.validatePassword(plaintext)] *)
  passwordRule : string -> bool;
  (** what [user.createToken()] settles to, for the n-th token handed out *)
  mint : User -> nat -> Settled string
}.

(** The string behind a parameter already known to be truthy. *)
Definition the (v : JsString) : string :=
  match v with
  | Some s => s
  | None => ""
  end.

(** [next(err)] *)
Definition next (err : HttpError) : Promise World unit :=
  modify (emit (EvNext err)).

(** [res.send(status, body)]: the call is recorded.  That restify's
    [send] throws once a response has gone out is not modelled, so a trace
    is the program's only up to the second answer of a run. *)
Definition res_send (status : Z) (body : Body) : Promise World unit :=
  modify (emit (EvSend status body)).

(** [Honeybadger.notify(err)] *)
Definition Honeybadger_notify (err : JsError) : Promise World unit :=
  modify (emit (EvNotify err)).

(** Modelled from the spec: [tokenBlacklist] of [lib/helpers] is not part of
    the controller; the spec's Revocation Registry is an in-memory set with
    an idempotent insert and a membership test. *)
Definition addTokenToBlacklist (jwt : string) : Promise World unit :=
  modify (fun w => set_blacklist ({[ jwt ]} ∪ blacklist w) w).

(** Modelled from the spec: the Revocation Registry's [isRevoked], consulted
    on every authenticated request. *)
Definition isTokenBlacklisted (jwt : string) (w : World) : bool :=
  bool_decide (jwt ∈ blacklist w).

(** [User.findOne(query).exec()]: the first document the query matches. *)
Definition findOne (query : User -> bool) : Promise World (option User) :=
  fun w => (Resolved (List.find query (users w)), w).

Section Controller.
Context {M : Models}.

(** [doc.save()] *)
Definition save (doc : User) : Promise World User :=
  fun w =>
    let w1 := emit (EvSave doc) w in
    match persist doc (users w1) with
    | Resolved (stored, db) => (Resolved stored, set_users db w1)
    | Rejected err => (Rejected err, w1)
    end.

(** [user.createToken()] *)
Definition createToken (user : User) : Promise World string :=
  fun w =>
    match mint user (minted w) with
    | Resolved jwt => (Resolved jwt, set_minted (S (minted w)) w)
    | Rejected err => (Rejected err, w)
    end.

(** [user.checkPassword(plaintext)] *)
Definition checkPassword (user : User) (plaintext : string)
  : Promise World bool :=
  fun w => (verifyPassword user plaintext, w).

(** [User.validatePassword(plaintext)] *)
Definition validatePassword (plaintext : string) : bool :=
  passwordRule plaintext.

Definition handleUserError (err : JsError) : Promise World unit :=
  if String.eqb (err_message err) "Duplicate user detected" then
    next (BadRequestError (err_message err))
  else
    match err_errors err with
    | Some errors =>
        let msg :=
          join ", " (map (fun f => "Parameter " +:+ f.1 +:+ " " +:+ f.2)
                         errors) in
        next (UnprocessableEntityError msg)
    | None =>
        Honeybadger_notify err >>
        next (InternalServerError (err_message err))
    end.

(** *** registerUser *)

Record RegisterRequest := mkRegisterRequest {
  reg_name : string;
  reg_email : string;
  reg_password : string;
  reg_language : string
}.

Definition registerUser (req : RegisterRequest) : Promise World unit :=
  catch_
    (then_ (save (construct (reg_name req) (reg_email req)
                            (reg_password req) (reg_language req)))
       (fun newUser =>
          catch_
            (then_ (createToken newUser)
               (fun token =>
                  res_send 201
                    (mkBody "Created" "Successfully registered new user"
                            (Some (DataUser newUser)) (Some token))))
            (fun err =>
               next (InternalServerError
                       ("User successfully created but unable to create jwt token: "
                        +:+ err_message err)))))
    (fun err => handleUserError err).

(** *** signIn and signOut *)

Definition signIn (req_user : User) : Promise World unit :=
  catch_
    (then_ (createToken req_user)
       (fun token =>
          res_send 200
            (mkBody "Authorized" "Successfully signed in"
                    (Some (DataUser req_user)) (Some token))))
    (fun err =>
       next (InternalServerError
               ("unable to create jwt token: " +:+ err_message err))).

Definition signOut (req_jwt : string) : Promise World unit :=
  addTokenToBlacklist req_jwt >>
  res_send 200 (mkBody "Ok" "Successfully signed out" None None).

(** *** resetPassword *)

Record ResetRequest := mkResetRequest {
  rp_password : string;
  rp_token : string;
  rp_email : string
}.

(** [moment.utc().isAfter(moment.utc(expires))], with [now] what
    [moment.utc()] reads, in milliseconds.  Without a stored expiry the
    right-hand moment is the current instant or invalid, and [isAfter]
    is false. *)
Definition isAfter (now : Z) (expires : option Z) : bool :=
  match expires with
  | Some t => t <? now
  | None => false
  end.

(** the query [{ email, resetPasswordToken: token }] *)
Definition reset_query (req : ResetRequest) (u : User) : bool :=
  String.eqb (email u) (rp_email req)
  && bool_decide (resetPasswordToken u = Some (rp_token req)).

Definition resetPassword (now : Z) (req : ResetRequest) : Promise World unit :=
  catch_
    (then_
       (findOne (reset_query req))
       (fun found =>
          match found with
          | None =>
              next (ForbiddenError "Password reset for this user not possible")
          | Some user =>
              if isAfter now (resetPasswordExpires user) then
                next (ForbiddenError "Password reset token expired")
              else
                let user := set_password (rp_password req) user in
                save user >>
                res_send 200
                  (mkBody "Ok"
                     "Password successfully changed. You can now login with your new password"
                     None None)
          end))
    (fun err => handleUserError err).

(** *** confirmEmailAddress *)

Record ConfirmRequest := mkConfirmRequest {
  ce_token : string;
  ce_email : string
}.

(** the query [{ $and: [ { $or: [ { email: email }, { unconfirmedEmail:
    email } ] }, { emailConfirmationToken: token } ] }] *)
Definition confirm_query (req : ConfirmRequest) (u : User) : bool :=
  (String.eqb (email u) (ce_email req)
   || bool_decide (unconfirmedEmail u = Some (ce_email req)))
  && String.eqb (emailConfirmationToken u) (ce_token req).

Definition confirmEmailAddress (req : ConfirmRequest) : Promise World unit :=
  catch_
    (then_
       (findOne (confirm_query req))
       (fun found =>
          match found with
          | None => next (ForbiddenError "invalid email confirmation token")
          | Some user =>
              let user := set_emailConfirmationToken "" user in
              let user := set_emailIsConfirmed true user in
              save user >>
              res_send 200
                (mkBody "Ok" "E-Mail successfully confirmed. Thank you"
                        None None)
          end))
    (fun err => handleUserError err).

(** *** updateUser *)

Record UpdateRequest := mkUpdateRequest {
  up_name : JsString;            (* req.params.name *)
  up_email : JsString;           (* req._userParams.email *)
  up_language : JsString;
  up_currentPassword : JsString;
  up_newPassword : JsString;
  up_jwt : string                (* req._jwt *)
}.

(** What the callbacks of [updateUser] close over: the document
    [req.user], the local variables [msgs], [signOut] and
    [somethingsChanged], and the shared state. *)
Record Frame := mkFrame {
  req_user : User;
  msgs : list string;
  signOutFlag : bool;
  somethingsChanged : bool;
  world : World
}.

Definition set_req_user (f : User -> User) (fr : Frame) : Frame :=
  mkFrame (f (req_user fr)) (msgs fr) (signOutFlag fr)
          (somethingsChanged fr) (world fr).

Definition push_msg (m : string) (fr : Frame) : Frame :=
  mkFrame (req_user fr) (msgs fr ++ [m]) (signOutFlag fr)
          (somethingsChanged fr) (world fr).

Definition set_signOut (b : bool) (fr : Frame) : Frame :=
  mkFrame (req_user fr) (msgs fr) b (somethingsChanged fr) (world fr).

Definition set_somethingsChanged (b : bool) (fr : Frame) : Frame :=
  mkFrame (req_user fr) (msgs fr) (signOutFlag fr) b (world fr).

Definition set_world (w : World) (fr : Frame) : Frame :=
  mkFrame (req_user fr) (msgs fr) (signOutFlag fr) (somethingsChanged fr) w.

(** An effect on the shared state, run from inside a callback. *)
Definition liftW {A} (p : Promise World A) : Promise Frame A :=
  fun fr =>
    match p (world fr) with
    | (r, w) => (r, set_world w fr)
    end.

(** The first [then] callback (lines 278 to 316).  [save] resolves with
    the document itself, as the model's hooks left it. *)
Definition applyChanges (req : UpdateRequest) (oldPasswordIsCorrect : bool)
  : Promise Frame (option User) :=
  if negb oldPasswordIsCorrect then
    liftW (next (BadRequestError "Current password not correct.")) >>
    resolve None
  else
    then_ get (fun fr =>
      when (truthy (up_name req) && strict_ne (up_name req) ""
            && strict_ne (up_name req) (name (req_user fr)))
        (modify (set_req_user (set_name (the (up_name req)))) >>
         modify (set_somethingsChanged true))) >>
    then_ get (fun fr =>
      when (truthy (up_language req) && strict_ne (up_language req) ""
            && strict_ne (up_language req) (language (req_user fr)))
        (modify (set_req_user (set_language (the (up_language req)))) >>
         modify (set_somethingsChanged true))) >>
    then_ get (fun fr =>
      when (truthy (up_email req) && strict_ne (up_email req) ""
            && strict_ne (up_email req) (email (req_user fr)))
        (modify (set_req_user (set_unconfirmedEmail (up_email req))) >>
         modify (push_msg " E-Mail changed. Please confirm your new address. Until confirmation, sign in using your old address") >>
         modify (set_somethingsChanged true))) >>
    when (truthy (up_newPassword req) && strict_ne (up_newPassword req) "")
      (modify (set_req_user (set_password (the (up_newPassword req)))) >>
       modify (push_msg " Password changed. Please log in with your new password") >>
       modify (set_signOut true) >>
       modify (set_somethingsChanged true)) >>
    then_ get (fun fr =>
      when (negb (somethingsChanged fr))
        (liftW (res_send 200
                  (mkBody "Ok"
                     "No changed properties supplied. User remains unchanged."
                     None None)))) >>
    then_ get (fun fr =>
      then_ (liftW (save (req_user fr))) (fun stored =>
        modify (set_req_user (fun _ => stored)) >>
        resolve (Some stored))).

(** The second [then] callback (lines 317 to 322). *)
Definition afterSave (req : UpdateRequest) (updatedUser : option User)
  : Promise Frame unit :=
  then_ get (fun fr =>
    when (signOutFlag fr) (liftW (addTokenToBlacklist (up_jwt req)))) >>
  then_ get (fun fr =>
    liftW (res_send 200
             (mkBody "Ok"
                ("User successfully saved." +:+ join "." (msgs fr))
                (Some (DataMe updatedUser)) None))).

(** [err.errors && err.errors[path]] *)
Definition has_error_on (path : string) (err : JsError) : bool :=
  match err_errors err with
  | Some errors => existsb (fun f => String.eqb f.1 path) errors
  | None => false
  end.

(** The [catch] callback (lines 323 to 329). *)
Definition onRejected (req : UpdateRequest) (err : JsError)
  : Promise Frame unit :=
  if has_error_on "unconfirmedEmail" err then
    liftW (next (UnprocessableEntityError
                   ("New email address invalid or an user with the email address "
                    +:+ template (up_email req) +:+ " already existsh.")))
  else
    liftW (handleUserError err).

Definition updateUser (req : UpdateRequest) (user : User) (w : World)
  : Settled unit * Frame :=
  let fr := mkFrame user [] false false w in
  if truthy (up_email req) && truthy (up_newPassword req) then
    liftW (next (BadRequestError
                   "You cannot change your email address and password in the same request."))
          fr
  else
    let chain (p : Promise Frame bool) : Promise Frame unit :=
      catch_ (then_ (then_ p (applyChanges req)) (afterSave req))
             (onRejected req) in
    if (truthy (up_newPassword req) && strict_ne (up_newPassword req) "")
       || (truthy (up_email req) && strict_ne (up_email req) "") then
      if negb (truthy (up_currentPassword req))
         || negb (strict_ne (up_currentPassword req) "") then
        liftW (next (BadRequestError
                       "To change your password or email address, please supply your current password."))
              fr
      else
        let p := liftW (checkPassword user (the (up_currentPassword req))) in
        if truthy (up_newPassword req)
           && negb (validatePassword (the (up_newPassword req))) then
          liftW (next (BadRequestError
                         "New password should have at least 8 characters"))
                fr
        else chain p fr
    else
      chain (resolve true) fr.
End Controller.

(** ** Reading a run *)

(** The events a computation added to the trace of [w]. *)
Definition events_since (w w' : World) : list Event :=
  drop (length (trace w)) (trace w').

(** The first answer the client is given: the first [next(err)] or
    [res.send] of a run. *)
Fixpoint first_reply (evs : list Event) : option Event :=
  match evs with
  | [] => None
  | EvNext err :: _ => Some (EvNext err)
  | EvSend status body :: _ => Some (EvSend status body)
  | _ :: rest => first_reply rest
  end.

Definition is_save (e : Event) : bool :=
  match e with
  | EvSave _ => true
  | _ => false
  end.

(** No document was saved during the run. *)
Definition no_save (evs : list Event) : bool := forallb (fun e => negb (is_save e)) evs.

(** The tokens a trace shows were handed to the user with identifier [id],
    at registration or at sign in. *)
Fixpoint tokens_issued_to (id : nat) (evs : list Event) : list string :=
  match evs with
  | [] => []
  | EvSend _ (mkBody _ _ (Some (DataUser u)) (Some jwt)) :: rest =>
      if Nat.eqb (uid u) id then jwt :: tokens_issued_to id rest
      else tokens_issued_to id rest
  | _ :: rest => tokens_issued_to id rest
  end.

(** ** The outcomes of a handler

    The states and the events the paths through the handlers end in; the
    lemmas below show that the handlers compute them. *)

Section Outcomes.
Context {M : Models}.

(** Which of the four assignments of the first callback run. *)
Definition name_applies (req : UpdateRequest) (user : User) : bool :=
  truthy (up_name req) && strict_ne (up_name req) ""
  && strict_ne (up_name req) (name user).

Definition language_applies (req : UpdateRequest) (user : User) : bool :=
  truthy (up_language req) && strict_ne (up_language req) ""
  && strict_ne (up_language req) (language user).

Definition email_applies (req : UpdateRequest) (user : User) : bool :=
  truthy (up_email req) && strict_ne (up_email req) ""
  && strict_ne (up_email req) (email user).

Definition password_applies (req : UpdateRequest) : bool :=
  truthy (up_newPassword req) && strict_ne (up_newPassword req) "".

(** [req.user] as the first callback leaves it before the save. *)
Definition edited (req : UpdateRequest) (user : User) : User :=
  let u1 := if name_applies req user
            then set_name (the (up_name req)) user else user in
  let u2 := if language_applies req user
            then set_language (the (up_language req)) u1 else u1 in
  let u3 := if email_applies req user
            then set_unconfirmedEmail (up_email req) u2 else u2 in
  if password_applies req
  then set_password (the (up_newPassword req)) u3 else u3.

Definition advisories (req : UpdateRequest) (user : User) : list string :=
  (if email_applies req user
   then [" E-Mail changed. Please confirm your new address. Until confirmation, sign in using your old address"]
   else [])
  ++ (if password_applies req
      then [" Password changed. Please log in with your new password"]
      else []).

Definition anything_applies (req : UpdateRequest) (user : User) : bool :=
  name_applies req user || language_applies req user
  || email_applies req user || password_applies req.

Definition nothing_changed_body : Body :=
  mkBody "Ok" "No changed properties supplied. User remains unchanged."
         None None.

Definition saved_body (ms : list string) (updatedUser : option User) : Body :=
  mkBody "Ok" ("User successfully saved." +:+ join "." ms)
         (Some (DataMe updatedUser)) None.

(** The world when [save] is called from the first callback. *)
Definition before_save (req : UpdateRequest) (user : User) (w : World) : World :=
  emit (EvSave (edited req user))
       (if anything_applies req user then w
        else emit (EvSend 200 nothing_changed_body) w).

Definition revoke_if (b : bool) (jwt : string) (w : World) : World :=
  if b then set_blacklist ({[ jwt ]} ∪ blacklist w) w else w.

(** The run of the promise chain once the current password, if it was
    needed, has been found correct. *)
Definition accepted (req : UpdateRequest) (user : User) (w : World)
  : Settled unit * Frame :=
  match persist (edited req user) (users w) with
  | Resolved (stored, db) =>
      (Resolved tt,
       mkFrame stored (advisories req user) (password_applies req)
               (anything_applies req user)
               (emit (EvSend 200 (saved_body (advisories req user) (Some stored)))
                  (revoke_if (password_applies req) (up_jwt req)
                     (set_users db (before_save req user w)))))
  | Rejected err =>
      onRejected req err
        (mkFrame (edited req user) (advisories req user) (password_applies req)
                 (anything_applies req user) (before_save req user w))
  end.

(** The run of the promise chain when the current password is wrong. *)
Definition refused (user : User) (w : World) : Settled unit * Frame :=
  (Resolved tt,
   mkFrame user [] false false
     (emit (EvSend 200 (saved_body [] None))
        (emit (EvNext (BadRequestError "Current password not correct.")) w))).

Definition chain (req : UpdateRequest) (p : Promise Frame bool)
  : Promise Frame unit :=
  catch_ (then_ (then_ p (applyChanges req)) (afterSave req))
         (onRejected req).

(** A password or e-mail change is asked for. *)
Definition sensitive (req : UpdateRequest) : bool :=
  (truthy (up_newPassword req) && strict_ne (up_newPassword req) "")
  || (truthy (up_email req) && strict_ne (up_email req) "").

Definition refuse_with (msg : string) (user : User) (w : World)
  : Settled unit * Frame :=
  (Resolved tt,
   mkFrame user [] false false (emit (EvNext (BadRequestError msg)) w)).

(** What [handleUserError] adds to the trace. *)
Definition classified (err : JsError) : list Event :=
  if String.eqb (err_message err) "Duplicate user detected" then
    [EvNext (BadRequestError (err_message err))]
  else
    match err_errors err with
    | Some errors =>
        [EvNext (UnprocessableEntityError
                   (join ", " (map (fun f => "Parameter " +:+ f.1 +:+ " " +:+ f.2)
                                   errors)))]
    | None => [EvNotify err; EvNext (InternalServerError (err_message err))]
    end.

Definition emits (evs : list Event) (w : World) : World :=
  mkWorld (users w) (blacklist w) (minted w) (trace w ++ evs).

(** What the [catch] callback of [updateUser] adds to the trace. *)
Definition rejection_events (req : UpdateRequest) (err : JsError) : list Event :=
  if has_error_on "unconfirmedEmail" err then
    [EvNext (UnprocessableEntityError
               ("New email address invalid or an user with the email address "
                +:+ template (up_email req) +:+ " already existsh."))]
  else classified err.

(** The events of the accepted path, after the world [w]. *)
Definition accepted_events (req : UpdateRequest) (user : User) (w : World)
  : list Event :=
  (if anything_applies req user then []
   else [EvSend 200 nothing_changed_body])
  ++ EvSave (edited req user)
  :: match persist (edited req user) (users w) with
     | Resolved (stored, _) =>
         [EvSend 200 (saved_body (advisories req user) (Some stored))]
     | Rejected err => rejection_events req err
     end.

(** A run of [updateUser] ended with the reply that the user was saved,
    carrying the stored document. *)
Definition succeeded (evs : list Event) : Prop :=
  exists ms stored, EvSend 200 (saved_body ms (Some stored)) ∈ evs.

Definition reset_denied : HttpError :=
  ForbiddenError "Password reset for this user not possible".

Definition reset_expired : HttpError :=
  ForbiddenError "Password reset token expired".

Definition confirmation_denied : HttpError :=
  ForbiddenError "invalid email confirmation token".

Definition reset_done : Body :=
  mkBody "Ok"
    "Password successfully changed. You can now login with your new password"
    None None.

Definition confirmation_done : Body :=
  mkBody "Ok" "E-Mail successfully confirmed. Thank you" None None.

(** A document is saved and, when that worked, [done] is sent. *)
Definition save_then_send (doc : User) (done : Body) (w : World)
  : Settled unit * World :=
  match persist doc (users w) with
  | Resolved (stored, db) =>
      (Resolved tt,
       emit (EvSend 200 done) (set_users db (emit (EvSave doc) w)))
  | Rejected err =>
      (Resolved tt, emits (classified err) (emit (EvSave doc) w))
  end.

End Outcomes.

(** ** A reference implementation of the collaborators

    Used to run the handlers on concrete requests. *)
Module Reference.

Definition hash (plaintext : string) : string := "$2a$" +:+ plaintext.

Definition same_doc (a b : User) : bool := Nat.eqb (uid a) (uid b).

Definition stored_version (doc : User) (db : list User) : option User :=
  List.find (same_doc doc) db.

(** the unique indexes on [name] and [email] *)
Definition duplicate (doc : User) (db : list User) : bool :=
  existsb (fun u => negb (same_doc doc u)
                    && (String.eqb (email u) (email doc)
                        || String.eqb (name u) (name doc))) db.

Definition unconfirmedEmail_taken (doc : User) (db : list User) : bool :=
  match unconfirmedEmail doc with
  | Some e => existsb (fun u => negb (same_doc doc u) && String.eqb (email u) e) db
  | None => false
  end.

Definition password_modified (doc : User) (db : list User) : bool :=
  match stored_version doc db with
  | Some old => negb (String.eqb (password old) (password doc))
  | None => true
  end.

Definition unconfirmedEmail_modified (doc : User) (db : list User) : bool :=
  match stored_version doc db with
  | Some old => negb (bool_decide (unconfirmedEmail old = unconfirmedEmail doc))
  | None => false
  end.

(** the pre-save hooks: hash a modified password and drop the pending
    reset, issue a confirmation token for a new pending address *)
Definition hooks (doc : User) (db : list User) : User :=
  let doc1 :=
    if password_modified doc db
    then clear_reset (set_password (hash (password doc)) doc)
    else doc in
  if unconfirmedEmail_modified doc db
  then set_emailConfirmationToken
         ("confirm:" +:+ template (unconfirmedEmail doc)) doc1
  else doc1.

Definition write (doc : User) (db : list User) : list User :=
  if existsb (same_doc doc) db
  then map (fun u => if same_doc doc u then doc else u) db
  else db ++ [doc].

(** Modelled from the spec: the Credential Store's atomic [save], which
    fails on a duplicate key or a field validation and otherwise stores
    the record; the model of [lib/models] is not part of the controller. *)
Definition store (doc : User) (db : list User) : Settled (User * list User) :=
  if duplicate doc db then
    Rejected (mkJsError "Duplicate user detected" None)
  else if unconfirmedEmail_taken doc db then
    Rejected (mkJsError "User validation failed"
                (Some [("unconfirmedEmail", "is already in use")]))
  else
    let doc1 := if Nat.eqb (uid doc) 0 then set_uid (S (length db)) doc else doc in
    let doc2 := hooks doc1 db in
    Resolved (doc2, write doc2 db).

(** Modelled from the spec: a new account starts unconfirmed and with no
    pending reset. *)
Definition fresh (nm em pw lang : string) : User :=
  mkUser 0 nm em None pw lang None None ("confirm:" +:+ em) false.

(** Modelled from the spec: [verifyPassword] compares with the stored hash. *)
Definition verify (user : User) (plaintext : string) : Settled bool :=
  Resolved (String.eqb (password user) (hash plaintext)).

(** Modelled from the spec: the minimum password length is 8. *)
Definition long_enough (plaintext : string) : bool :=
  Nat.leb 8 (String.length plaintext).

(** Modelled from the spec: the Token Issuer mints an opaque token bound
    to the user; no two tokens are the same. *)
Definition sign (user : User) (n : nat) : Settled string :=
  Resolved ("jwt." +:+ email user +:+ "." +:+ pretty n).

Definition models : Models :=
  {| construct := fresh;
     persist := store;
     verifyPassword := verify;
     passwordRule := long_enough;
     mint := sign |}.

(** The same service started without a signing secret: every token
    request is rejected. *)
Definition models_without_secret : Models :=
  {| construct := fresh;
     persist := store;
     verifyPassword := verify;
     passwordRule := long_enough;
     mint := fun _ _ =>
               Rejected (mkJsError "secretOrPrivateKey must have a value" None) |}.

Definition alice : User :=
  mkUser 1 "alice01" "a@x.com" None (hash "longenough1") "en_US"
         None None "" true.

Definition bob : User :=
  mkUser 2 "bob0002" "bob@x.com" None (hash "correct horse") "de_DE"
         None None "" true.

Definition world0 : World := mkWorld [alice; bob] ∅ 0 [].

End Reference.

(** ** Runs on concrete requests *)

Module Scenario.
Import Reference.

(** alice asks for a reset at time 0; the link is good for 12 hours *)
Definition alice_resetting : User :=
  mkUser 1 "alice01" "a@x.com" None (hash "longenough1") "en_US"
         (Some "reset-4711") (Some 43200000) "" true.

(** alice has asked to move to b@x.com and has not confirmed yet *)
Definition alice_moving : User :=
  mkUser 1 "alice01" "a@x.com" (Some "b@x.com") (hash "longenough1") "en_US"
         None None "confirm:b@x.com" false.

Definition resetting : World := mkWorld [alice_resetting; bob] ∅ 0 [].
Definition moving : World := mkWorld [alice_moving; bob] ∅ 0 [].
Definition without_alice : World := mkWorld [bob] ∅ 0 [].

(** alice signs in on two devices *)
Definition two_sessions : World :=
  (signIn (M:=models) alice (signIn (M:=models) alice world0).2).2.

Definition change_password : UpdateRequest :=
  mkUpdateRequest None None None (Some "longenough1") (Some "longenough2")
                  "jwt.a@x.com.0".

Definition same_password_again : UpdateRequest :=
  mkUpdateRequest None None None (Some "longenough1") (Some "longenough1")
                  "jwt.a@x.com.0".

Definition change_both : UpdateRequest :=
  mkUpdateRequest None (Some "b@x.com") None (Some "longenough1")
                  (Some "longenough2") "jwt.a@x.com.0".

Definition wrong_password : UpdateRequest :=
  mkUpdateRequest (Some "alice02") None None (Some "not my password")
                  (Some "longenough2") "jwt.a@x.com.0".

Definition wrong_and_short : UpdateRequest :=
  mkUpdateRequest None None None (Some "not my password") (Some "short")
                  "jwt.a@x.com.0".

Definition change_profile : UpdateRequest :=
  mkUpdateRequest (Some "alice02") (Some "b@x.com") (Some "fr")
                  (Some "longenough1") None "jwt.a@x.com.0".

Definition change_nothing : UpdateRequest :=
  mkUpdateRequest (Some "alice01") None (Some "") None None "jwt.a@x.com.0".

Definition carol : RegisterRequest :=
  mkRegisterRequest "carol03" "c@x.com" "longenough3" "en_US".
End Scenario.

(** ** The request for a password reset, and requests in a row *)

(** An answer to the client: a call of [next] with an error or of
    [res.send]. *)
Definition is_reply (e : Event) : bool :=
  match e with
  | EvNext _ => true
  | EvSend _ _ => true
  | _ => false
  end.

Definition replies (evs : list Event) : list Event := List.filter is_reply evs.

Definition saves (evs : list Event) : list Event := List.filter is_save evs.

(** The request with another [currentPassword]. *)
Definition with_currentPassword (v : JsString) (req : UpdateRequest)
  : UpdateRequest :=
  mkUpdateRequest (up_name req) (up_email req) (up_language req) v
                  (up_newPassword req) (up_jwt req).

(** One request to the controller.  [SignIn] and [Update] carry the
    document the authentication put into [req.user]. *)
Inductive Call :=
| Register (req : RegisterRequest)
| SignIn (user : User)
| SignOut (jwt : string)
| RequestReset (address : string)
| Reset (now : Z) (req : ResetRequest)
| Confirm (req : ConfirmRequest)
| Update (req : UpdateRequest) (user : User).

Section Requests.
Context {M : Models}.

(** What [user.initPasswordReset()] of the model does to the collection, or
    the rejection of its promise. *)
Variable beginReset : User -> list User -> Settled (list User).

(** [user.initPasswordReset()] *)
Definition initPasswordReset (user : User) : Promise World unit :=
  fun w =>
    match beginReset user (users w) with
    | Resolved db => (Resolved tt, set_users db w)
    | Rejected err => (Rejected err, w)
    end.

(** the query [{ email }] *)
Definition request_query (address : string) (u : User) : bool :=
  String.eqb (email u) address.

Definition reset_initiated : Body :=
  mkBody "Ok" "Password reset initiated" None None.

Definition requestResetPassword (address : string) : Promise World unit :=
  catch_
    (then_ (findOne (request_query address))
       (fun found =>
          match found with
          | None =>
              next (ForbiddenError "Password reset for this user not possible")
          | Some user =>
              initPasswordReset user >>
              res_send 200 (mkBody "Ok" "Password reset initiated" None None)
          end))
    (fun err => handleUserError err).

(** The shared state after a request has been handled. *)
Definition serve (c : Call) (w : World) : World :=
  match c with
  | Register req => (registerUser req w).2
  | SignIn user => (signIn user w).2
  | SignOut jwt => (signOut jwt w).2
  | RequestReset address => (requestResetPassword address w).2
  | Reset now req => (resetPassword now req w).2
  | Confirm req => (confirmEmailAddress req w).2
  | Update req user => world (updateUser req user w).2
  end.

(** Requests handled one after the other. *)
Definition serve_all (cs : list Call) (w : World) : World :=
  fold_left (fun w c => serve c w) cs w.

(** The request revokes the token [jwt]: a sign out with it, or a profile
    update made with it that carries a new password. *)
Definition revokes (jwt : string) (c : Call) : bool :=
  match c with
  | SignOut jwt' => String.eqb jwt' jwt
  | Update req _ => String.eqb (up_jwt req) jwt && truthy (up_newPassword req)
  | _ => false
  end.
End Requests.

Module Mailer.
Import Reference.

(** Modelled from the spec: a reset request stores a fresh reset token and
    an expiry twelve hours ahead on the user. *)
Definition begin_reset (user : User) (db : list User) : Settled (list User) :=
  Resolved
    (write (mkUser (uid user) (name user) (email user) (unconfirmedEmail user)
                   (password user) (language user)
                   (Some ("reset:" +:+ email user)) (Some 43200000)
                   (emailConfirmationToken user) (emailIsConfirmed user))
           db).

(** The mail server is down: every reset request is rejected. *)
Definition no_mail (user : User) (db : list User) : Settled (list User) :=
  Rejected (mkJsError "connect ECONNREFUSED" None).

(** The database is down: every save is rejected. *)
Definition models_offline : Models :=
  {| construct := fresh;
     persist := fun _ _ => Rejected (mkJsError "topology was destroyed" None);
     verifyPassword := verify;
     passwordRule := long_enough;
     mint := sign |}.
End Mailer.

(** ** Proof tools *)

(** Unfolds the monad and the frame, leaving the shared state folded. *)
Ltac run :=
  cbv beta iota zeta delta
    [then_ catch_ get when modify resolve reject liftW
     set_req_user set_somethingsChanged push_msg set_signOut set_world
     req_user msgs signOutFlag somethingsChanged world negb
     save createToken checkPassword findOne res_send next
     Honeybadger_notify addTokenToBlacklist];
  cbn [name email language unconfirmedEmail password uid users emit
       set_name set_language set_unconfirmedEmail set_password].

Ltac pick H :=
  repeat (apply elem_of_cons in H as [-> | H]); [.. | inversion H].

(** ** How the handlers run *)

Section Runs.
Context {M : Models}.

Lemma truthy_and_strict_ne v : truthy v && strict_ne v "" = truthy v.
Proof. destruct v as [s|]; simpl; [apply andb_diag | reflexivity]. Qed.

Lemma truthy_Some v : truthy v = true <-> exists s, v = Some s /\ s <> "".
Proof.
  destruct v as [s|]; simpl; split.
  - intros H. exists s. split; [reflexivity|].
    intros ->. discriminate.
  - intros (s' & [= <-] & Hs). apply negb_true_iff, String.eqb_neq, Hs.
  - discriminate.
  - intros (s' & [=] & _).
Qed.

Lemma users_emit e w : users (emit e w) = users w.
Proof. reflexivity. Qed.

Lemma events_since_emit (w : World) (evs : list Event) (w' : World) :
  trace w' = trace w ++ evs -> events_since w w' = evs.
Proof. intros E. unfold events_since. rewrite E. apply drop_app_length. Qed.

Lemma applyChanges_run req user w :
  applyChanges req true (mkFrame user [] false false w) =
  match persist (edited req user) (users w) with
  | Resolved (stored, db) =>
      (Resolved (Some stored),
       mkFrame stored (advisories req user) (password_applies req)
               (anything_applies req user)
               (set_users db (before_save req user w)))
  | Rejected err =>
      (Rejected err,
       mkFrame (edited req user) (advisories req user) (password_applies req)
               (anything_applies req user) (before_save req user w))
  end.
Proof.
  unfold applyChanges, before_save, edited, advisories, anything_applies.
  run.
  fold (name_applies req user).
  destruct (name_applies req user); run;
  fold (language_applies req user);
  destruct (language_applies req user); run;
  fold (email_applies req user);
  destruct (email_applies req user); run;
  fold (password_applies req);
  destruct (password_applies req); run.
  all: cbn [orb app].
  all: destruct (persist _ _) as [[stored db]|err]; reflexivity.
Qed.

Lemma chain_accepted req p user w :
  p (mkFrame user [] false false w)
  = (Resolved true, mkFrame user [] false false w) ->
  chain req p (mkFrame user [] false false w) = accepted req user w.
Proof.
  intros Hp. unfold chain, accepted.
  unfold catch_ at 1, then_ at 1, then_ at 1. rewrite Hp.
  rewrite applyChanges_run.
  destruct (persist _ _) as [[stored db]|err]; [|reflexivity].
  unfold afterSave, revoke_if. run.
  destruct (password_applies req); reflexivity.
Qed.

Lemma chain_refused req p user w :
  p (mkFrame user [] false false w)
  = (Resolved false, mkFrame user [] false false w) ->
  chain req p (mkFrame user [] false false w) = refused user w.
Proof.
  intros Hp. unfold chain, refused.
  unfold catch_ at 1, then_ at 1, then_ at 1. rewrite Hp.
  reflexivity.
Qed.

Lemma chain_rejected req p user w err :
  p (mkFrame user [] false false w)
  = (Rejected err, mkFrame user [] false false w) ->
  chain req p (mkFrame user [] false false w)
  = onRejected req err (mkFrame user [] false false w).
Proof.
  intros Hp. unfold chain.
  unfold catch_ at 1, then_ at 1, then_ at 1. rewrite Hp.
  reflexivity.
Qed.

(** The paths through [updateUser]. *)
Lemma updateUser_paths req user w :
  updateUser req user w =
  if truthy (up_email req) && truthy (up_newPassword req) then
    refuse_with "You cannot change your email address and password in the same request." user w
  else if sensitive req then
    if negb (truthy (up_currentPassword req)) then
      refuse_with "To change your password or email address, please supply your current password." user w
    else if truthy (up_newPassword req)
            && negb (passwordRule (the (up_newPassword req))) then
      refuse_with "New password should have at least 8 characters" user w
    else
      match verifyPassword user (the (up_currentPassword req)) with
      | Resolved true => accepted req user w
      | Resolved false => refused user w
      | Rejected err => onRejected req err (mkFrame user [] false false w)
      end
  else accepted req user w.
Proof.
  unfold updateUser. fold (chain req). fold (sensitive req).
  destruct (truthy (up_email req) && truthy (up_newPassword req)); [reflexivity|].
  destruct (sensitive req).
  - assert (E : negb (truthy (up_currentPassword req))
                || negb (strict_ne (up_currentPassword req) "")
                = negb (truthy (up_currentPassword req))).
    { destruct (up_currentPassword req) as [s|]; simpl; [|reflexivity].
      apply orb_diag. }
    rewrite E.
    destruct (negb (truthy (up_currentPassword req))); [reflexivity|].
    unfold validatePassword.
    destruct (truthy (up_newPassword req)
              && negb (passwordRule (the (up_newPassword req)))); [reflexivity|].
    destruct (verifyPassword user (the (up_currentPassword req)))
      as [[|]|err] eqn:V.
    + apply chain_accepted. unfold liftW, checkPassword. cbn. now rewrite V.
    + apply chain_refused. unfold liftW, checkPassword. cbn. now rewrite V.
    + apply chain_rejected. unfold liftW, checkPassword. cbn. now rewrite V.
  - now apply chain_accepted.
Qed.

Lemma handleUserError_run err w :
  handleUserError err w = (Resolved tt, emits (classified err) w).
Proof.
  unfold handleUserError, classified, emits.
  destruct (String.eqb _ _); [reflexivity|].
  destruct (err_errors err); [reflexivity|].
  run. unfold emit. cbn. now rewrite <- app_assoc.
Qed.

Lemma onRejected_run req err fr :
  onRejected req err fr
  = (Resolved tt, set_world (emits (rejection_events req err) (world fr)) fr).
Proof.
  unfold onRejected, rejection_events.
  destruct (has_error_on _ _); [reflexivity|].
  unfold liftW. now rewrite handleUserError_run.
Qed.

Lemma trace_accepted req user w :
  trace (world (accepted req user w).2) = trace w ++ accepted_events req user w.
Proof.
  unfold accepted, accepted_events, before_save.
  destruct (persist _ _) as [[stored db]|err].
  - destruct (anything_applies req user), (password_applies req); cbn;
      rewrite <- ?app_assoc; reflexivity.
  - rewrite onRejected_run.
    destruct (anything_applies req user); cbn; rewrite <- ?app_assoc; reflexivity.
Qed.

Lemma blacklist_accepted req user w :
  blacklist (world (accepted req user w).2) =
  match persist (edited req user) (users w) with
  | Resolved _ =>
      if password_applies req then {[ up_jwt req ]} ∪ blacklist w
      else blacklist w
  | Rejected _ => blacklist w
  end.
Proof.
  unfold accepted, before_save.
  destruct (persist _ _) as [[stored db]|err].
  - destruct (anything_applies req user), (password_applies req); reflexivity.
  - rewrite onRejected_run.
    destruct (anything_applies req user); reflexivity.
Qed.


Lemma events_accepted req user w :
  events_since w (world (accepted req user w).2) = accepted_events req user w.
Proof. apply events_since_emit, trace_accepted. Qed.

Lemma events_refuse_with msg user w :
  events_since w (world (refuse_with msg user w).2)
  = [EvNext (BadRequestError msg)].
Proof. now apply events_since_emit. Qed.

Lemma events_refused user w :
  events_since w (world (refused user w).2)
  = [EvNext (BadRequestError "Current password not correct.");
     EvSend 200 (saved_body [] None)].
Proof. apply events_since_emit. cbn. now rewrite <- app_assoc. Qed.

Lemma events_onRejected req err user w :
  events_since w (world (onRejected req err (mkFrame user [] false false w)).2)
  = rejection_events req err.
Proof. rewrite onRejected_run. now apply events_since_emit. Qed.

Lemma classified_no_save err : no_save (classified err) = true.
Proof.
  unfold classified.
  destruct (String.eqb _ _); [reflexivity|].
  destruct (err_errors err); reflexivity.
Qed.

Lemma rejection_events_no_save req err : no_save (rejection_events req err) = true.
Proof.
  unfold rejection_events.
  destruct (has_error_on _ _); [reflexivity | apply classified_no_save].
Qed.

End Runs.

(** ** The profile update *)

Section UpdateUser.
Context {M : Models}.

(** The fields of the document handed to [save]. *)
Lemma name_edited req user :
  name (edited req user)
  = if name_applies req user then the (up_name req) else name user.
Proof.
  unfold edited.
  destruct (name_applies req user), (language_applies req user),
    (email_applies req user), (password_applies req); reflexivity.
Qed.

Lemma language_edited req user :
  language (edited req user)
  = if language_applies req user then the (up_language req) else language user.
Proof.
  unfold edited.
  destruct (name_applies req user), (language_applies req user),
    (email_applies req user), (password_applies req); reflexivity.
Qed.

Lemma email_edited req user : email (edited req user) = email user.
Proof.
  unfold edited.
  destruct (name_applies req user), (language_applies req user),
    (email_applies req user), (password_applies req); reflexivity.
Qed.

Lemma unconfirmedEmail_edited req user :
  unconfirmedEmail (edited req user)
  = if email_applies req user then up_email req else unconfirmedEmail user.
Proof.
  unfold edited.
  destruct (name_applies req user), (language_applies req user),
    (email_applies req user), (password_applies req); reflexivity.
Qed.

Lemma password_edited req user :
  password (edited req user)
  = if password_applies req then the (up_newPassword req) else password user.
Proof.
  unfold edited.
  destruct (name_applies req user), (language_applies req user),
    (email_applies req user), (password_applies req); reflexivity.
Qed.

(** When a supplied value counts as a change of the current one. *)
Lemma differs_spec (v : JsString) (current : string) :
  truthy v && strict_ne v "" && strict_ne v current = true
  <-> exists s, v = Some s /\ s <> "" /\ s <> current.
Proof.
  destruct v as [s|]; simpl.
  - rewrite andb_diag, andb_true_iff, !negb_true_iff, !String.eqb_neq.
    split.
    + intros [H1 H2]. exists s. auto.
    + intros (s' & [= <-] & H1 & H2). auto.
  - split; [discriminate|]. intros (s' & [=] & _).
Qed.

Lemma password_applies_spec req :
  password_applies req = true
  <-> exists s, up_newPassword req = Some s /\ s <> "".
Proof.
  unfold password_applies. rewrite truthy_and_strict_ne. apply truthy_Some.
Qed.

Lemma not_differs (v : JsString) (current : string) :
  v = None \/ v = Some "" \/ v = Some current ->
  truthy v && strict_ne v "" && strict_ne v current = false.
Proof.
  intros H. apply not_true_is_false. rewrite differs_spec.
  intros (s & Hs & H1 & H2).
  destruct H as [H | [H | H]]; rewrite H in Hs; [discriminate | |];
    injection Hs as <-; congruence.
Qed.

(** The only document [updateUser] saves is [req.user] as edited by the
    first callback. *)
Lemma saved_document req user w doc :
  EvSave doc ∈ events_since w (world (updateUser req user w).2) ->
  doc = edited req user.
Proof.
  rewrite updateUser_paths.
  assert (Hacc : EvSave doc ∈ accepted_events req user w -> doc = edited req user).
  { unfold accepted_events. intros H.
    apply elem_of_app in H as [H | H].
    - destruct (anything_applies req user).
      + inversion H.
      + apply list_elem_of_singleton in H. discriminate.
    - apply elem_of_cons in H as [H | H]; [congruence|].
      exfalso.
      assert (N : no_save
                    match persist (edited req user) (users w) with
                    | Resolved (stored, _) =>
                        [EvSend 200 (saved_body (advisories req user) (Some stored))]
                    | Rejected err => rejection_events req err
                    end = true).
      { destruct (persist _ _) as [[stored db]|err];
          [reflexivity | apply rejection_events_no_save]. }
      unfold no_save in N. rewrite forallb_forall in N.
      apply list_elem_of_In, N in H. discriminate. }
  assert (Hrefuse : forall msg,
             EvSave doc ∈ events_since w (world (refuse_with msg user w).2)
             -> doc = edited req user).
  { intros msg. rewrite events_refuse_with. intros H.
    apply list_elem_of_singleton in H. discriminate. }
  destruct (truthy (up_email req) && truthy (up_newPassword req)); [apply Hrefuse|].
  destruct (sensitive req); [|rewrite events_accepted; exact Hacc].
  destruct (negb (truthy (up_currentPassword req))); [apply Hrefuse|].
  destruct (truthy (up_newPassword req) && negb _); [apply Hrefuse|].
  destruct (verifyPassword _ _) as [[|]|err].
  - rewrite events_accepted. exact Hacc.
  - rewrite events_refused. intros H.
    apply elem_of_cons in H as [H | H]; [discriminate|].
    apply list_elem_of_singleton in H. discriminate.
  - rewrite events_onRejected. intros H. exfalso.
    pose proof (rejection_events_no_save req err) as N.
    unfold no_save in N. rewrite forallb_forall in N.
    apply list_elem_of_In, N in H. discriminate.
Qed.

Lemma rejection_events_no_send req err status body :
  EvSend status body ∉ rejection_events req err.
Proof.
  unfold rejection_events, classified.
  destruct (has_error_on _ _).
  - intros H. apply list_elem_of_singleton in H. discriminate.
  - destruct (String.eqb _ _).
    + intros H. apply list_elem_of_singleton in H. discriminate.
    + destruct (err_errors err).
      * intros H. apply list_elem_of_singleton in H. discriminate.
      * intros H. apply elem_of_cons in H as [H | H]; [discriminate|].
        apply list_elem_of_singleton in H. discriminate.
Qed.

(** A successful run went through the accepted path and its save resolved. *)
Lemma succeeded_accepted req user w :
  succeeded (events_since w (world (updateUser req user w).2)) ->
  updateUser req user w = accepted req user w
  /\ exists stored db, persist (edited req user) (users w) = Resolved (stored, db).
Proof.
  rewrite updateUser_paths. unfold succeeded.
  assert (Hacc : (exists ms stored,
                     EvSend 200 (saved_body ms (Some stored))
                     ∈ events_since w (world (accepted req user w).2)) ->
                 exists stored db,
                   persist (edited req user) (users w) = Resolved (stored, db)).
  { rewrite events_accepted. unfold accepted_events.
    destruct (persist _ _) as [[stored db]|err]; [eauto|].
    intros (ms & stored & H). exfalso.
    apply elem_of_app in H as [H | H].
    - destruct (anything_applies req user).
      + inversion H.
      + apply list_elem_of_singleton in H. discriminate.
    - apply elem_of_cons in H as [H | H]; [discriminate|].
      now apply rejection_events_no_send in H. }
  assert (Hrefuse : forall msg (P : Prop),
             (exists ms stored,
                 EvSend 200 (saved_body ms (Some stored))
                 ∈ events_since w (world (refuse_with msg user w).2)) -> P).
  { intros msg P (ms & stored & H). rewrite events_refuse_with in H.
    apply list_elem_of_singleton in H. discriminate. }
  destruct (truthy (up_email req) && truthy (up_newPassword req)); [apply Hrefuse|].
  destruct (sensitive req); [|auto].
  destruct (negb (truthy (up_currentPassword req))); [apply Hrefuse|].
  destruct (truthy (up_newPassword req) && negb _); [apply Hrefuse|].
  destruct (verifyPassword _ _) as [[|]|err].
  - auto.
  - intros (ms & stored & H). exfalso. rewrite events_refused in H.
    apply elem_of_cons in H as [H | H]; [discriminate|].
    apply list_elem_of_singleton in H. discriminate.
  - intros (ms & stored & H). exfalso. rewrite events_onRejected in H.
    now apply rejection_events_no_send in H.
Qed.

(** X23: whatever the collaborators do, a call that asks for no password or
    e-mail change and changes no field is answered with the 'nothing
    changed' message, and then saves [req.user] as it was. *)
Lemma updateUser_unchanged_is_saved req user w :
  sensitive req = false ->
  anything_applies req user = false ->
  exists rest,
    events_since w (world (updateUser req user w).2)
    = EvSend 200 nothing_changed_body :: EvSave user :: rest.
Proof.
  intros Hs Ha. rewrite updateUser_paths, Hs.
  assert (E : truthy (up_email req) && truthy (up_newPassword req) = false).
  { unfold sensitive in Hs. rewrite !truthy_and_strict_ne in Hs.
    apply orb_false_iff in Hs as [_ ->]. reflexivity. }
  rewrite E, events_accepted. unfold accepted_events. rewrite Ha.
  unfold anything_applies in Ha.
  apply orb_false_iff in Ha as [Ha H4].
  apply orb_false_iff in Ha as [Ha H3].
  apply orb_false_iff in Ha as [H1 H2].
  unfold edited. rewrite H1, H2, H3, H4. cbn [app]. eauto.
Qed.

(** C3: a call of [updateUser] that supplies both a non-empty [email] and
    a non-empty [newPassword] is answered with the bad request error
    before anything else is done: that [next(err)] is the only thing the
    handler does, [req.user] keeps every field, nothing is saved, the
    collection and the token blacklist are as before. *)
Theorem updateUser_email_and_password_rejected req user w :
  truthy (up_email req) = true ->
  truthy (up_newPassword req) = true ->
  let run := updateUser req user w in
  run.1 = Resolved tt
  /\ events_since w (world run.2)
     = [EvNext (BadRequestError
                  "You cannot change your email address and password in the same request.")]
  /\ req_user run.2 = user
  /\ users (world run.2) = users w
  /\ blacklist (world run.2) = blacklist w.
Proof.
  intros He Hp. cbv zeta. rewrite updateUser_paths, He, Hp. cbn [andb].
  rewrite events_refuse_with. auto.
Qed.

(** C6, as the code has it: when a password or e-mail change is asked for
    with a [currentPassword] that the stored hash does not match, the
    first reply is a bad request error whatever else was supplied, no
    field of [req.user] is assigned, nothing is saved and no token is
    blacklisted.  The error is 'Current password not correct.' when the
    earlier guards let the call through: not both an e-mail and a
    password change, a non-empty [currentPassword], and a [newPassword]
    (if any) that passes the password rule. *)
Theorem updateUser_wrong_current_password req user w cp :
  sensitive req = true ->
  up_currentPassword req = Some cp ->
  verifyPassword user cp = Resolved false ->
  let run := updateUser req user w in
  let evs := events_since w (world run.2) in
  (exists msg, first_reply evs = Some (EvNext (BadRequestError msg)))
  /\ (truthy (up_email req) && truthy (up_newPassword req) = false ->
      cp <> "" ->
      (truthy (up_newPassword req) = true ->
       passwordRule (the (up_newPassword req)) = true) ->
      first_reply evs
      = Some (EvNext (BadRequestError "Current password not correct.")))
  /\ no_save evs = true
  /\ req_user run.2 = user
  /\ users (world run.2) = users w
  /\ blacklist (world run.2) = blacklist w.
Proof.
  intros Hs Hcp Hv. cbv zeta. rewrite updateUser_paths, Hs, Hcp.
  cbn [the]. rewrite Hv.
  destruct (truthy (up_email req) && truthy (up_newPassword req)).
  { rewrite events_refuse_with. cbn. repeat split; eauto. discriminate. }
  destruct (truthy (Some cp)) eqn:Tcp; cbn [negb].
  2:{ rewrite events_refuse_with. cbn. repeat split; eauto.
      intros _ Hne _. simpl in Tcp.
      apply negb_false_iff, String.eqb_eq in Tcp. contradiction. }
  destruct (truthy (up_newPassword req)) eqn:Tnp; cbn [andb].
  - destruct (passwordRule _) eqn:R; cbn [negb].
    + rewrite events_refused. cbn. repeat split; eauto.
    + rewrite events_refuse_with. cbn. repeat split; eauto.
      intros _ _ H. specialize (H eq_refl). discriminate.
  - rewrite events_refused. cbn. repeat split; eauto.
Qed.

(** C1, as the code has it: after a successful password change through
    [updateUser] the token the call was made with is on the blacklist,
    and it is the only token the call adds: every other token, one minted
    afterwards for the same user or one handed out before, is
    blacklisted after the call exactly if it was before. *)
Theorem updateUser_password_change_revokes_own_token req user w :
  truthy (up_newPassword req) = true ->
  succeeded (events_since w (world (updateUser req user w).2)) ->
  let w' := world (updateUser req user w).2 in
  blacklist w' = {[ up_jwt req ]} ∪ blacklist w
  /\ isTokenBlacklisted (up_jwt req) w' = true
  /\ (forall jwt, jwt <> up_jwt req ->
      isTokenBlacklisted jwt w' = isTokenBlacklisted jwt w).
Proof.
  intros Hp Hok. cbv zeta.
  destruct (succeeded_accepted _ _ _ Hok) as (-> & stored & db & Hsave).
  assert (B : blacklist (world (accepted req user w).2)
              = {[ up_jwt req ]} ∪ blacklist w).
  { rewrite blacklist_accepted, Hsave. unfold password_applies.
    now rewrite truthy_and_strict_ne, Hp. }
  unfold isTokenBlacklisted. rewrite B. split; [reflexivity|]. split.
  - apply bool_decide_eq_true, elem_of_union. left.
    now apply elem_of_singleton.
  - intros jwt Hne. apply bool_decide_ext.
    rewrite elem_of_union, elem_of_singleton. tauto.
Qed.

(** C7, as the code has it: in the document [updateUser] saves, [name]
    and [language] carry the supplied value when it is non-empty and
    differs from the current one and are otherwise untouched; [email] is
    never assigned, and a supplied e-mail that is non-empty and differs
    from the current address goes to [unconfirmedEmail], which is
    otherwise untouched; [password] is assigned every non-empty
    [newPassword], with no comparison to the current password, and is
    otherwise untouched. *)
Theorem updateUser_field_application req user w doc :
  EvSave doc ∈ events_since w (world (updateUser req user w).2) ->
  (forall n, up_name req = Some n -> n <> "" -> n <> name user ->
             name doc = n)
  /\ (up_name req = None \/ up_name req = Some ""
      \/ up_name req = Some (name user) -> name doc = name user)
  /\ (forall l, up_language req = Some l -> l <> "" -> l <> language user ->
                language doc = l)
  /\ (up_language req = None \/ up_language req = Some ""
      \/ up_language req = Some (language user) ->
      language doc = language user)
  /\ email doc = email user
  /\ (forall e, up_email req = Some e -> e <> "" -> e <> email user ->
                unconfirmedEmail doc = Some e)
  /\ (up_email req = None \/ up_email req = Some ""
      \/ up_email req = Some (email user) ->
      unconfirmedEmail doc = unconfirmedEmail user)
  /\ (forall p, up_newPassword req = Some p -> p <> "" -> password doc = p)
  /\ (up_newPassword req = None \/ up_newPassword req = Some "" ->
      password doc = password user).
Proof.
  intros H. apply saved_document in H. subst doc.
  rewrite name_edited, language_edited, email_edited,
    unconfirmedEmail_edited, password_edited.
  unfold name_applies, language_applies, email_applies.
  repeat split.
  - intros n Hn H1 H2.
    assert (A : truthy (up_name req) && strict_ne (up_name req) ""
                && strict_ne (up_name req) (name user) = true)
      by (apply differs_spec; eauto).
    rewrite A, Hn. reflexivity.
  - intros H. now rewrite not_differs.
  - intros l Hl H1 H2.
    assert (A : truthy (up_language req) && strict_ne (up_language req) ""
                && strict_ne (up_language req) (language user) = true)
      by (apply differs_spec; eauto).
    rewrite A, Hl. reflexivity.
  - intros H. now rewrite not_differs.
  - intros e He H1 H2.
    assert (A : truthy (up_email req) && strict_ne (up_email req) ""
                && strict_ne (up_email req) (email user) = true)
      by (apply differs_spec; eauto).
    rewrite A, He. reflexivity.
  - intros H. now rewrite not_differs.
  - intros p Hp H1.
    assert (A : password_applies req = true)
      by (apply password_applies_spec; eauto).
    rewrite A, Hp. reflexivity.
  - intros H.
    assert (A : password_applies req = false).
    { apply not_true_is_false. rewrite password_applies_spec.
      intros (s & Hs & Hne). destruct H as [H | H]; congruence. }
    now rewrite A.
Qed.

End UpdateUser.

(** ** Password reset, e-mail confirmation and registration *)

Section Recovery.
Context {M : Models}.

Lemma resetPassword_paths now req w :
  resetPassword now req w =
  match List.find (reset_query req) (users w) with
  | None => (Resolved tt, emit (EvNext reset_denied) w)
  | Some user =>
      if isAfter now (resetPasswordExpires user)
      then (Resolved tt, emit (EvNext reset_expired) w)
      else save_then_send (set_password (rp_password req) user) reset_done w
  end.
Proof.
  unfold resetPassword, save_then_send, catch_, then_, findOne.
  destruct (List.find _ _) as [user|]; [|reflexivity].
  destruct (isAfter _ _); [reflexivity|].
  unfold save. cbv zeta. rewrite users_emit.
  destruct (persist _ _) as [[stored db]|err]; [reflexivity|].
  apply handleUserError_run.
Qed.

Lemma confirmEmailAddress_paths req w :
  confirmEmailAddress req w =
  match List.find (confirm_query req) (users w) with
  | None => (Resolved tt, emit (EvNext confirmation_denied) w)
  | Some user =>
      save_then_send
        (set_emailIsConfirmed true (set_emailConfirmationToken "" user))
        confirmation_done w
  end.
Proof.
  unfold confirmEmailAddress, save_then_send, catch_, then_, findOne.
  destruct (List.find _ _) as [user|]; [|reflexivity].
  unfold save. cbv zeta. rewrite users_emit.
  destruct (persist _ _) as [[stored db]|err]; [reflexivity|].
  apply handleUserError_run.
Qed.

Lemma events_save_then_send doc done w :
  events_since w (save_then_send doc done w).2
  = EvSave doc
    :: match persist doc (users w) with
       | Resolved _ => [EvSend 200 done]
       | Rejected err => classified err
       end.
Proof.
  apply events_since_emit. unfold save_then_send.
  destruct (persist _ _) as [[stored db]|err]; cbn;
    now rewrite <- app_assoc.
Qed.

Lemma find_none_iff {A} (f : A -> bool) (l : list A) :
  List.find f l = None <-> forall x, x ∈ l -> f x = false.
Proof.
  split.
  - intros H x Hx. apply list_elem_of_In in Hx.
    exact (find_none f l H x Hx).
  - intros H. induction l as [|a l IH]; [reflexivity|]. simpl.
    rewrite (H a) by apply list_elem_of_here.
    apply IH. intros x Hx. apply H. now apply list_elem_of_further.
Qed.

Lemma classified_forbidden err msg :
  EvNext (ForbiddenError msg) ∉ classified err.
Proof.
  unfold classified.
  destruct (String.eqb _ _).
  - intros H. apply list_elem_of_singleton in H. discriminate.
  - destruct (err_errors err).
    + intros H. apply list_elem_of_singleton in H. discriminate.
    + intros H. apply elem_of_cons in H as [H | H]; [discriminate|].
      apply list_elem_of_singleton in H. discriminate.
Qed.


(** C4: when [resetPassword] finds the user for the e-mail and the reset
    token but the current time is after [resetPasswordExpires], the only
    thing it does is to answer with the 'Password reset token expired'
    error, and that error differs from the one a request that matches no
    user is answered with. *)
Theorem resetPassword_expired now req w user expires :
  List.find (reset_query req) (users w) = Some user ->
  resetPasswordExpires user = Some expires ->
  expires < now ->
  events_since w (resetPassword now req w).2 = [EvNext reset_expired]
  /\ users (resetPassword now req w).2 = users w
  /\ (forall w0, List.find (reset_query req) (users w0) = None ->
                 events_since w0 (resetPassword now req w0).2
                 = [EvNext reset_denied])
  /\ reset_expired <> reset_denied.
Proof.
  intros Hf He Hlt.
  assert (A : isAfter now (resetPasswordExpires user) = true).
  { rewrite He. simpl. now apply Z.ltb_lt. }
  repeat split.
  - rewrite resetPassword_paths, Hf, A. now apply events_since_emit.
  - now rewrite resetPassword_paths, Hf, A.
  - intros w0 H0. rewrite resetPassword_paths, H0. now apply events_since_emit.
  - discriminate.
Qed.

(** C5: [resetPassword] with a reset token that no user with that e-mail
    has stored, and [confirmEmailAddress] with a confirmation token that
    no user with that address has stored, are answered with a forbidden
    error and change nothing; a run in a world where no user has the
    address at all gives the very same events and the same result. *)
Theorem wrong_token_same_as_unknown_user now rreq creq w1 w2 :
  (forall u, u ∈ users w1 -> email u = rp_email rreq ->
             resetPasswordToken u <> Some (rp_token rreq)) ->
  (forall u, u ∈ users w1 ->
             email u = ce_email creq \/ unconfirmedEmail u = Some (ce_email creq) ->
             emailConfirmationToken u <> ce_token creq) ->
  (forall u, u ∈ users w2 -> email u <> rp_email rreq) ->
  (forall u, u ∈ users w2 ->
             email u <> ce_email creq /\ unconfirmedEmail u <> Some (ce_email creq)) ->
  (events_since w1 (resetPassword now rreq w1).2 = [EvNext reset_denied]
   /\ events_since w2 (resetPassword now rreq w2).2
      = events_since w1 (resetPassword now rreq w1).2
   /\ (resetPassword now rreq w2).1 = (resetPassword now rreq w1).1
   /\ users (resetPassword now rreq w1).2 = users w1)
  /\ (events_since w1 (confirmEmailAddress creq w1).2 = [EvNext confirmation_denied]
      /\ events_since w2 (confirmEmailAddress creq w2).2
         = events_since w1 (confirmEmailAddress creq w1).2
      /\ (confirmEmailAddress creq w2).1 = (confirmEmailAddress creq w1).1
      /\ users (confirmEmailAddress creq w1).2 = users w1).
Proof.
  intros R1 C1 R2 C2.
  assert (F1 : List.find (reset_query rreq) (users w1) = None).
  { apply find_none_iff. intros u Hu. unfold reset_query.
    destruct (String.eqb (email u) (rp_email rreq)) eqn:E; [|reflexivity].
    apply String.eqb_eq in E. cbn [andb].
    apply bool_decide_eq_false. now apply R1. }
  assert (F2 : List.find (reset_query rreq) (users w2) = None).
  { apply find_none_iff. intros u Hu. unfold reset_query.
    destruct (String.eqb (email u) (rp_email rreq)) eqn:E; [|reflexivity].
    apply String.eqb_eq in E. now apply R2 in E. }
  assert (G1 : List.find (confirm_query creq) (users w1) = None).
  { apply find_none_iff. intros u Hu. unfold confirm_query.
    destruct (String.eqb (emailConfirmationToken u) (ce_token creq)) eqn:T;
      [|apply andb_false_r].
    apply String.eqb_eq in T. rewrite andb_true_r.
    apply not_true_is_false. intros H. apply orb_true_iff in H.
    apply (C1 u Hu); [|exact T].
    destruct H as [H | H];
      [left; now apply String.eqb_eq | right; now apply bool_decide_eq_true in H]. }
  assert (G2 : List.find (confirm_query creq) (users w2) = None).
  { apply find_none_iff. intros u Hu. unfold confirm_query.
    destruct (C2 u Hu) as [N1 N2].
    apply String.eqb_neq in N1. rewrite N1.
    rewrite bool_decide_eq_false_2 by exact N2. reflexivity. }
  rewrite !resetPassword_paths, !confirmEmailAddress_paths, F1, F2, G1, G2.
  cbn [fst snd].
  rewrite !(events_since_emit _ [EvNext reset_denied]) by reflexivity.
  rewrite !(events_since_emit _ [EvNext confirmation_denied]) by reflexivity.
  repeat split.
Qed.

(** C10: the expiry check of [resetPassword] is strict.  A request that
    arrives at the very instant [resetPasswordExpires] is not answered
    as expired: the handler assigns the new password and saves the
    document, whose [password] is the one of the request and whose other
    fields are those of the user found, and answers that the password was
    changed when the save worked. *)
Theorem resetPassword_at_expiry_instant req w user expires :
  List.find (reset_query req) (users w) = Some user ->
  resetPasswordExpires user = Some expires ->
  let doc := set_password (rp_password req) user in
  let run := resetPassword expires req w in
  (password doc = rp_password req
   /\ uid doc = uid user /\ name doc = name user /\ email doc = email user
   /\ unconfirmedEmail doc = unconfirmedEmail user
   /\ language doc = language user
   /\ resetPasswordToken doc = resetPasswordToken user
   /\ resetPasswordExpires doc = resetPasswordExpires user
   /\ emailConfirmationToken doc = emailConfirmationToken user
   /\ emailIsConfirmed doc = emailIsConfirmed user)
  /\ (exists rest, events_since w run.2 = EvSave doc :: rest
                   /\ EvNext reset_expired ∉ rest)
  /\ (forall stored db,
         persist doc (users w) = Resolved (stored, db) ->
         events_since w run.2 = [EvSave doc; EvSend 200 reset_done]
         /\ users run.2 = db).
Proof.
  intros Hf He. cbv zeta.
  assert (A : isAfter expires (resetPasswordExpires user) = false).
  { rewrite He. simpl. apply Z.ltb_irrefl. }
  split; [repeat (split; [reflexivity|]); reflexivity|].
  rewrite resetPassword_paths, Hf, A, events_save_then_send. split.
  - eexists. split; [reflexivity|].
    destruct (persist _ _) as [[stored db]|err].
    + intros H. apply list_elem_of_singleton in H. discriminate.
    + apply classified_forbidden.
  - intros stored db Hp. unfold save_then_send. now rewrite Hp.
Qed.

(** C8: when [registerUser] has saved the new user and the token cannot
    be created, it answers with an internal server error whose message
    starts by saying that the user was created and ends with the reason;
    the account is in the collection; and no duplicate or validation
    failure of a save is ever answered with that error. *)
Theorem registerUser_token_failure req w newUser db err :
  persist (construct (reg_name req) (reg_email req) (reg_password req)
                     (reg_language req)) (users w)
  = Resolved (newUser, db) ->
  mint newUser (minted w) = Rejected err ->
  let run := registerUser req w in
  let reply :=
    EvNext (InternalServerError
              ("User successfully created but unable to create jwt token: "
               +:+ err_message err)) in
  events_since w run.2
  = [EvSave (construct (reg_name req) (reg_email req) (reg_password req)
                       (reg_language req)); reply]
  /\ users run.2 = db
  /\ (forall failure,
         err_message failure = "Duplicate user detected"
         \/ err_errors failure <> None ->
         reply ∉ classified failure).
Proof.
  intros Hs Hm. cbv zeta.
  assert (R : registerUser req w
              = (Resolved tt,
                 emit (EvNext (InternalServerError
                                 ("User successfully created but unable to create jwt token: "
                                  +:+ err_message err)))
                      (set_users db
                         (emit (EvSave (construct (reg_name req) (reg_email req)
                                          (reg_password req) (reg_language req)))
                               w)))).
  { unfold registerUser, catch_, then_, save, createToken. cbv zeta.
    rewrite users_emit, Hs. cbn [minted set_users emit]. now rewrite Hm. }
  rewrite R. repeat split.
  - apply events_since_emit. cbn. now rewrite <- app_assoc.
  - intros failure Hf. unfold classified.
    destruct (String.eqb _ _) eqn:E.
    + intros H. apply list_elem_of_singleton in H. discriminate.
    + destruct (err_errors failure).
      * intros H. apply list_elem_of_singleton in H. discriminate.
      * destruct Hf as [Hf | Hf]; [|contradiction].
        apply String.eqb_neq in E. contradiction.
Qed.

End Recovery.

(** ** The handlers on concrete requests *)

Section Examples.
Import Reference Scenario.

(** C2 on the code: a call that changes nothing is answered with the
    'nothing changed' message, but the handler goes on: it saves the
    document all the same and answers a second time. *)
Theorem updateUser_nothing_changed_still_saves :
  anything_applies change_nothing alice = false
  /\ events_since world0
       (world (updateUser (M:=models) change_nothing alice world0).2)
     = [EvSend 200 nothing_changed_body;
        EvSave alice;
        EvSend 200 (saved_body [] (Some alice))].
Proof. split; vm_compute; reflexivity. Qed.

(** C9 on the code: confirming the pending address b@x.com clears the
    token, marks the address as confirmed and saves the user, but the
    saved and the stored document still have the old address in [email]
    and the new one in [unconfirmedEmail]. *)
Theorem confirmEmailAddress_does_not_promote :
  let run := confirmEmailAddress (M:=models)
               (mkConfirmRequest "confirm:b@x.com" "b@x.com") moving in
  let confirmed :=
    mkUser 1 "alice01" "a@x.com" (Some "b@x.com") (hash "longenough1")
           "en_US" None None "" true in
  events_since moving run.2 = [EvSave confirmed; EvSend 200 confirmation_done]
  /\ users run.2 = [confirmed; bob]
  /\ email confirmed <> "b@x.com".
Proof.
  cbv zeta. split; [|split].
  - vm_compute. reflexivity.
  - vm_compute. reflexivity.
  - discriminate.
Qed.

(** C1 as stated fails: alice has two tokens; she changes her password
    with the first one; the change succeeds and the second token is not
    on the blacklist. *)
Lemma updateUser_leaves_other_sessions :
  let w' := world (updateUser (M:=models) change_password alice two_sessions).2 in
  tokens_issued_to (uid alice) (trace two_sessions)
  = ["jwt.a@x.com.0"; "jwt.a@x.com.1"]
  /\ succeeded (events_since two_sessions w')
  /\ ~ (forall jwt, jwt ∈ tokens_issued_to (uid alice) (trace two_sessions) ->
                    isTokenBlacklisted jwt w' = true).
Proof.
  cbv zeta. split; [vm_compute; reflexivity|]. split.
  - exists (advisories change_password alice),
      (set_password (hash "longenough2") alice).
    vm_compute. apply list_elem_of_further, list_elem_of_here.
  - intros H. specialize (H "jwt.a@x.com.1").
    assert (E : isTokenBlacklisted "jwt.a@x.com.1"
                  (world (updateUser (M:=models) change_password alice
                                     two_sessions).2) = false)
      by (vm_compute; reflexivity).
    rewrite H in E; [discriminate|].
    vm_compute. apply list_elem_of_further, list_elem_of_here.
Qed.

Lemma updateUser_password_change_revokes_own_token_witness :
  let w' := world (updateUser (M:=models) change_password alice two_sessions).2 in
  isTokenBlacklisted "jwt.a@x.com.0" w' = true
  /\ isTokenBlacklisted "jwt.a@x.com.1" w' = false.
Proof.
  cbv zeta.
  assert (Hok : succeeded
                  (events_since two_sessions
                     (world (updateUser (M:=models) change_password alice
                                        two_sessions).2))).
  { exists (advisories change_password alice),
      (set_password (hash "longenough2") alice).
    vm_compute. apply list_elem_of_further, list_elem_of_here. }
  destruct (updateUser_password_change_revokes_own_token
              (M:=models) change_password alice two_sessions eq_refl Hok)
    as (_ & Hown & Hother).
  split; [exact Hown|].
  rewrite (Hother "jwt.a@x.com.1"); [vm_compute; reflexivity | discriminate].
Defined.

Lemma updateUser_email_and_password_rejected_witness :
  events_since world0 (world (updateUser (M:=models) change_both alice world0).2)
  = [EvNext (BadRequestError
               "You cannot change your email address and password in the same request.")]
  /\ users (world (updateUser (M:=models) change_both alice world0).2)
     = [alice; bob].
Proof.
  destruct (updateUser_email_and_password_rejected
              (M:=models) change_both alice world0 eq_refl eq_refl)
    as (_ & Hev & _ & Hdb & _).
  split; [exact Hev | exact Hdb].
Defined.

(** C6 as stated fails: the current password is wrong and the new one is
    too short; the answer is the error about the new password. *)
Lemma updateUser_wrong_password_other_message :
  sensitive wrong_and_short = true
  /\ verifyPassword (Models:=models) alice "not my password" = Resolved false
  /\ first_reply
       (events_since world0
          (world (updateUser (M:=models) wrong_and_short alice world0).2))
     = Some (EvNext (BadRequestError
                       "New password should have at least 8 characters"))
  /\ first_reply
       (events_since world0
          (world (updateUser (M:=models) wrong_and_short alice world0).2))
     <> Some (EvNext (BadRequestError "Current password not correct.")).
Proof.
  split; [reflexivity|]. split; [reflexivity|].
  assert (E : first_reply
                (events_since world0
                   (world (updateUser (M:=models) wrong_and_short alice world0).2))
              = Some (EvNext (BadRequestError
                                "New password should have at least 8 characters")))
    by (vm_compute; reflexivity).
  split; [exact E|]. rewrite E. discriminate.
Qed.

Lemma updateUser_wrong_current_password_witness :
  first_reply
    (events_since world0
       (world (updateUser (M:=models) wrong_password alice world0).2))
  = Some (EvNext (BadRequestError "Current password not correct."))
  /\ req_user (updateUser (M:=models) wrong_password alice world0).2 = alice.
Proof.
  destruct (updateUser_wrong_current_password
              (M:=models) wrong_password alice world0 "not my password"
              eq_refl eq_refl eq_refl)
    as (_ & Hmsg & _ & Hdoc & _).
  split; [|exact Hdoc].
  apply Hmsg; [reflexivity | discriminate | reflexivity].
Defined.

(** C7 as stated fails for [newPassword]: alice supplies her current
    password as the new one, and the field is assigned all the same. *)
Lemma updateUser_assigns_equal_password :
  up_newPassword same_password_again = Some "longenough1"
  /\ verifyPassword (Models:=models) alice "longenough1" = Resolved true
  /\ exists doc,
       EvSave doc
       ∈ events_since world0
           (world (updateUser (M:=models) same_password_again alice world0).2)
       /\ password doc = "longenough1"
       /\ password doc <> password alice.
Proof.
  split; [reflexivity|]. split; [reflexivity|].
  exists (set_password "longenough1" alice). split.
  - vm_compute. apply list_elem_of_here.
  - split; [reflexivity | discriminate].
Qed.

Lemma updateUser_field_application_witness :
  let doc := mkUser 1 "alice02" "a@x.com" (Some "b@x.com")
                    (hash "longenough1") "fr" None None "" true in
  EvSave doc
  ∈ events_since world0
      (world (updateUser (M:=models) change_profile alice world0).2)
  /\ name doc = "alice02"
  /\ unconfirmedEmail doc = Some "b@x.com"
  /\ password doc = password alice.
Proof.
  cbv zeta.
  assert (Hin : EvSave (mkUser 1 "alice02" "a@x.com" (Some "b@x.com")
                               (hash "longenough1") "fr" None None "" true)
                ∈ events_since world0
                    (world (updateUser (M:=models) change_profile alice world0).2)).
  { vm_compute. apply list_elem_of_here. }
  destruct (updateUser_field_application
              (M:=models) change_profile alice world0 _ Hin)
    as (Hname & _ & _ & _ & _ & Hmail & _ & _ & Hpw).
  split; [exact Hin|]. split; [|split].
  - apply Hname; [reflexivity | discriminate | discriminate].
  - apply Hmail; [reflexivity | discriminate | discriminate].
  - apply Hpw. now left.
Defined.

Lemma resetPassword_expired_witness :
  events_since resetting
    (resetPassword (M:=models) 43200001
                   (mkResetRequest "longenough2" "reset-4711" "a@x.com")
                   resetting).2
  = [EvNext reset_expired].
Proof.
  apply (resetPassword_expired
           (M:=models) 43200001
           (mkResetRequest "longenough2" "reset-4711" "a@x.com")
           resetting alice_resetting 43200000);
    [reflexivity | reflexivity | lia].
Defined.

Lemma resetPassword_at_expiry_instant_witness :
  events_since resetting
    (resetPassword (M:=models) 43200000
                   (mkResetRequest "longenough2" "reset-4711" "a@x.com")
                   resetting).2
  = [EvSave (set_password "longenough2" alice_resetting);
     EvSend 200 reset_done]
  /\ password (set_password "longenough2" alice_resetting) = "longenough2"
  /\ password alice_resetting <> "longenough2".
Proof.
  destruct (resetPassword_at_expiry_instant
              (M:=models)
              (mkResetRequest "longenough2" "reset-4711" "a@x.com")
              resetting alice_resetting 43200000 eq_refl eq_refl)
    as ((Hpw & _) & _ & Hdone).
  split; [|split; [exact Hpw | discriminate]].
  eapply Hdone. vm_compute. reflexivity.
Defined.

Lemma wrong_token_same_as_unknown_user_witness :
  let rreq := mkResetRequest "longenough2" "reset-0000" "a@x.com" in
  let creq := mkConfirmRequest "confirm:guess" "b@x.com" in
  events_since without_alice (resetPassword (M:=models) 1000 rreq without_alice).2
  = events_since resetting (resetPassword (M:=models) 1000 rreq resetting).2
  /\ events_since without_alice (confirmEmailAddress (M:=models) creq without_alice).2
     = [EvNext confirmation_denied].
Proof.
  cbv zeta.
  destruct (wrong_token_same_as_unknown_user
              (M:=models) 1000
              (mkResetRequest "longenough2" "reset-0000" "a@x.com")
              (mkConfirmRequest "confirm:guess" "b@x.com")
              resetting without_alice)
    as ((_ & Hr & _) & (Hc1 & Hc2 & _)).
  - intros u Hu _. cbn in Hu. pick Hu; discriminate.
  - intros u Hu _. cbn in Hu. pick Hu; discriminate.
  - intros u Hu. cbn in Hu. pick Hu; discriminate.
  - intros u Hu. cbn in Hu. pick Hu; split; discriminate.
  - split; [exact Hr | now rewrite Hc2, Hc1].
Defined.

Lemma registerUser_token_failure_witness :
  let saved := fresh "carol03" "c@x.com" "longenough3" "en_US" in
  let stored := set_password (hash "longenough3") (set_uid 3 saved) in
  events_since world0 (registerUser (M:=models_without_secret) carol world0).2
  = [EvSave saved;
     EvNext (InternalServerError
               "User successfully created but unable to create jwt token: secretOrPrivateKey must have a value")]
  /\ users (registerUser (M:=models_without_secret) carol world0).2
     = [alice; bob; stored].
Proof.
  cbv zeta.
  destruct (registerUser_token_failure
              (M:=models_without_secret) carol world0
              (set_password (hash "longenough3")
                 (set_uid 3 (fresh "carol03" "c@x.com" "longenough3" "en_US")))
              [alice; bob;
               set_password (hash "longenough3")
                 (set_uid 3 (fresh "carol03" "c@x.com" "longenough3" "en_US"))]
              (mkJsError "secretOrPrivateKey must have a value" None))
    as (Hev & Hdb & _).
  - vm_compute. reflexivity.
  - reflexivity.
  - split; [exact Hev | exact Hdb].
Defined.

End Examples.

(** ** Registration, sign in and sign out, and the classification of errors *)

Section Sessions.
Context {M : Models}.

Lemma registerUser_paths req w :
  registerUser req w =
  let doc := construct (reg_name req) (reg_email req) (reg_password req)
                       (reg_language req) in
  match persist doc (users w) with
  | Resolved (newUser, db) =>
      match mint newUser (minted w) with
      | Resolved jwt =>
          (Resolved tt,
           emit (EvSend 201 (mkBody "Created" "Successfully registered new user"
                                    (Some (DataUser newUser)) (Some jwt)))
                (set_minted (S (minted w)) (set_users db (emit (EvSave doc) w))))
      | Rejected err =>
          (Resolved tt,
           emit (EvNext (InternalServerError
                           ("User successfully created but unable to create jwt token: "
                            +:+ err_message err)))
                (set_users db (emit (EvSave doc) w)))
      end
  | Rejected err => (Resolved tt, emits (classified err) (emit (EvSave doc) w))
  end.
Proof.
  unfold registerUser, catch_, then_, save, createToken. cbv zeta.
  rewrite users_emit.
  destruct (persist _ _) as [[newUser db]|err].
  - cbn [minted set_users emit]. destruct (mint _ _); reflexivity.
  - apply handleUserError_run.
Qed.

Lemma signIn_paths user w :
  signIn user w =
  match mint user (minted w) with
  | Resolved jwt =>
      (Resolved tt,
       emit (EvSend 200 (mkBody "Authorized" "Successfully signed in"
                                (Some (DataUser user)) (Some jwt)))
            (set_minted (S (minted w)) w))
  | Rejected err =>
      (Resolved tt,
       emit (EvNext (InternalServerError
                       ("unable to create jwt token: " +:+ err_message err))) w)
  end.
Proof.
  unfold signIn, catch_, then_, createToken.
  destruct (mint _ _); reflexivity.
Qed.

Lemma replies_classified err : length (replies (classified err)) = 1%nat.
Proof.
  unfold classified.
  destruct (String.eqb _ _); [reflexivity|].
  destruct (err_errors err); reflexivity.
Qed.

Lemma events_emits evs w : events_since w (emits evs w) = evs.
Proof. now apply events_since_emit. Qed.

(** X1: [handleUserError] answers exactly once whatever the error is; it
    saves nothing and leaves the collection, the token blacklist and the
    token counter as they are. *)
Theorem handleUserError_answers_once err w :
  let w' := (handleUserError err w).2 in
  length (replies (events_since w w')) = 1%nat
  /\ no_save (events_since w w') = true
  /\ users w' = users w
  /\ blacklist w' = blacklist w
  /\ minted w' = minted w.
Proof.
  cbv zeta. rewrite handleUserError_run. cbn [snd]. rewrite events_emits.
  repeat split; [apply replies_classified | apply classified_no_save].
Qed.

(** X2: [handleUserError] reports an error to Honeybadger exactly when it
    is neither the duplicate-user error nor a validation error, and that is
    exactly when it answers with an internal server error (carrying the
    error's message).  The duplicate-user message wins over [err.errors]:
    such an error is a bad request; a validation error that is no duplicate
    is an unprocessable entity. *)
Theorem handleUserError_classification err w :
  let evs := events_since w (handleUserError err w).2 in
  (EvNotify err ∈ evs
   <-> err_message err <> "Duplicate user detected" /\ err_errors err = None)
  /\ (first_reply evs = Some (EvNext (InternalServerError (err_message err)))
      <-> err_message err <> "Duplicate user detected" /\ err_errors err = None)
  /\ (err_message err = "Duplicate user detected" ->
      evs = [EvNext (BadRequestError "Duplicate user detected")])
  /\ (err_message err <> "Duplicate user detected" ->
      err_errors err <> None ->
      exists msg, evs = [EvNext (UnprocessableEntityError msg)]).
Proof.
  cbv zeta. rewrite handleUserError_run. cbn [snd]. rewrite events_emits.
  unfold classified.
  destruct (String.eqb (err_message err) "Duplicate user detected") eqn:E.
  - apply String.eqb_eq in E. split; [|split; [|split]].
    + split; intros H.
      * apply list_elem_of_singleton in H. discriminate.
      * destruct H as [H _]. contradiction.
    + split; cbn; intros H.
      * discriminate.
      * destruct H as [H _]. contradiction.
    + intros _. now rewrite E.
    + intros H. contradiction.
  - apply String.eqb_neq in E. destruct (err_errors err) as [errors|].
    + split; [|split; [|split]].
      * split; intros H.
        -- apply list_elem_of_singleton in H. discriminate.
        -- destruct H as [_ H]. discriminate.
      * split; cbn; intros H.
        -- discriminate.
        -- destruct H as [_ H]. discriminate.
      * intros H. contradiction.
      * intros _ _. eauto.
    + split; [|split; [|split]].
      * split; intros H; [now split | apply list_elem_of_here].
      * split; cbn; intros H; [now split | reflexivity].
      * intros H. contradiction.
      * intros _ H. contradiction.
Qed.

(** X3: when the new user could be saved and the token could be created,
    [registerUser] saves the document it built from the request and
    answers 201 once, with the user as the save returned it and with that
    token; the collection is the one the save left. *)
Theorem registerUser_created req w newUser db jwt :
  persist (construct (reg_name req) (reg_email req) (reg_password req)
                     (reg_language req)) (users w)
  = Resolved (newUser, db) ->
  mint newUser (minted w) = Resolved jwt ->
  let w' := (registerUser req w).2 in
  events_since w w'
  = [EvSave (construct (reg_name req) (reg_email req) (reg_password req)
                       (reg_language req));
     EvSend 201 (mkBody "Created" "Successfully registered new user"
                        (Some (DataUser newUser)) (Some jwt))]
  /\ users w' = db
  /\ tokens_issued_to (uid newUser) (events_since w w') = [jwt].
Proof.
  intros Hs Hm. cbv zeta. rewrite registerUser_paths. cbv zeta.
  rewrite Hs, Hm. cbn [snd].
  assert (E : events_since w
                (emit (EvSend 201 (mkBody "Created" "Successfully registered new user"
                                          (Some (DataUser newUser)) (Some jwt)))
                   (set_minted (S (minted w))
                      (set_users db
                         (emit (EvSave (construct (reg_name req) (reg_email req)
                                          (reg_password req) (reg_language req)))
                               w))))
              = [EvSave (construct (reg_name req) (reg_email req) (reg_password req)
                                   (reg_language req));
                 EvSend 201 (mkBody "Created" "Successfully registered new user"
                                    (Some (DataUser newUser)) (Some jwt))]).
  { apply events_since_emit. cbn. now rewrite <- app_assoc. }
  rewrite E. repeat split. cbn. now rewrite Nat.eqb_refl.
Qed.

(** X4: when the save of the new user is rejected, [registerUser] asks for
    no token, leaves the collection as it was and answers once, with the
    classification of the error by [handleUserError]; a duplicate user is
    a bad request. *)
Theorem registerUser_save_rejected req w err :
  persist (construct (reg_name req) (reg_email req) (reg_password req)
                     (reg_language req)) (users w)
  = Rejected err ->
  let w' := (registerUser req w).2 in
  events_since w w'
  = EvSave (construct (reg_name req) (reg_email req) (reg_password req)
                      (reg_language req))
    :: events_since w (handleUserError err w).2
  /\ length (replies (events_since w w')) = 1%nat
  /\ users w' = users w
  /\ minted w' = minted w
  /\ (err_message err = "Duplicate user detected" ->
      first_reply (events_since w w')
      = Some (EvNext (BadRequestError "Duplicate user detected"))).
Proof.
  intros Hs. cbv zeta. rewrite registerUser_paths. cbv zeta. rewrite Hs.
  rewrite handleUserError_run. cbn [snd]. rewrite events_emits.
  assert (E : events_since w
                (emits (classified err)
                   (emit (EvSave (construct (reg_name req) (reg_email req)
                                    (reg_password req) (reg_language req))) w))
              = EvSave (construct (reg_name req) (reg_email req) (reg_password req)
                                  (reg_language req)) :: classified err).
  { apply events_since_emit. cbn. now rewrite <- app_assoc. }
  rewrite E. repeat split.
  - cbn. apply replies_classified.
  - intros Hd. unfold classified. rewrite Hd. reflexivity.
Qed.

(** X5: [signIn] answers exactly once and touches neither the collection
    nor the blacklist: with the token when it could be created, and with
    an internal server error carrying the reason when it could not. *)
Theorem signIn_answers_once user w :
  let w' := (signIn user w).2 in
  length (replies (events_since w w')) = 1%nat
  /\ no_save (events_since w w') = true
  /\ users w' = users w
  /\ blacklist w' = blacklist w
  /\ (forall jwt, mint user (minted w) = Resolved jwt ->
        events_since w w'
        = [EvSend 200 (mkBody "Authorized" "Successfully signed in"
                              (Some (DataUser user)) (Some jwt))])
  /\ (forall err, mint user (minted w) = Rejected err ->
        events_since w w'
        = [EvNext (InternalServerError
                     ("unable to create jwt token: " +:+ err_message err))]).
Proof.
  cbv zeta. rewrite signIn_paths.
  destruct (mint user (minted w)) as [jwt|err]; cbn [snd].
  - rewrite (events_since_emit w
               [EvSend 200 (mkBody "Authorized" "Successfully signed in"
                                   (Some (DataUser user)) (Some jwt))])
      by reflexivity.
    repeat split; [now intros ? [= <-] | discriminate].
  - rewrite (events_since_emit w
               [EvNext (InternalServerError
                          ("unable to create jwt token: " +:+ err_message err))])
      by reflexivity.
    repeat split; [discriminate | now intros ? [= <-]].
Qed.

(** X6: [signOut] always answers 200 once; afterwards the token of the
    request is blacklisted and every other token is blacklisted exactly if
    it was before; the collection is untouched, and signing out a second
    time with the same token changes the blacklist no further. *)
Theorem signOut_blacklists_the_token jwt w :
  let w' := (signOut jwt w).2 in
  events_since w w' = [EvSend 200 (mkBody "Ok" "Successfully signed out" None None)]
  /\ isTokenBlacklisted jwt w' = true
  /\ (forall other, other <> jwt ->
        isTokenBlacklisted other w' = isTokenBlacklisted other w)
  /\ users w' = users w
  /\ blacklist (signOut jwt w').2 = blacklist w'.
Proof.
  cbv zeta. unfold signOut, then_, addTokenToBlacklist, res_send, modify.
  cbn [snd]. split; [now apply events_since_emit|].
  unfold isTokenBlacklisted. cbn [blacklist emit set_blacklist].
  repeat split.
  - apply bool_decide_eq_true, elem_of_union. left. now apply elem_of_singleton.
  - intros other Hne. apply bool_decide_ext.
    rewrite elem_of_union, elem_of_singleton. tauto.
  - apply set_eq. intros x. rewrite !elem_of_union. tauto.
Qed.
End Sessions.

(** ** More on password reset and e-mail confirmation *)

Section Resets.
Context {M : Models}.
Variable beginReset : User -> list User -> Settled (list User).

Lemma requestResetPassword_paths address w :
  requestResetPassword beginReset address w =
  match List.find (request_query address) (users w) with
  | None => (Resolved tt, emit (EvNext reset_denied) w)
  | Some user =>
      match beginReset user (users w) with
      | Resolved db => (Resolved tt, emit (EvSend 200 reset_initiated) (set_users db w))
      | Rejected err => (Resolved tt, emits (classified err) w)
      end
  end.
Proof.
  unfold requestResetPassword, catch_, then_, findOne, initPasswordReset.
  destruct (List.find _ _) as [user|]; [|reflexivity].
  destruct (beginReset _ _) as [db|err]; [reflexivity|].
  apply handleUserError_run.
Qed.

(** X7: a reset request for an address no user has is answered with the
    forbidden error and nothing else happens: no reset is begun, the
    collection and the blacklist are as before.  It is the same answer
    [resetPassword] gives for that address. *)
Theorem requestResetPassword_unknown_address address w :
  (forall u, u ∈ users w -> email u <> address) ->
  let w' := (requestResetPassword beginReset address w).2 in
  events_since w w' = [EvNext reset_denied]
  /\ users w' = users w
  /\ blacklist w' = blacklist w
  /\ (forall now req, rp_email req = address ->
        events_since w (resetPassword now req w).2 = events_since w w').
Proof.
  intros Hno. cbv zeta.
  assert (F : List.find (request_query address) (users w) = None).
  { apply find_none_iff. intros u Hu. apply String.eqb_neq. now apply Hno. }
  rewrite requestResetPassword_paths, F. cbn [snd].
  rewrite (events_since_emit w [EvNext reset_denied]) by reflexivity.
  repeat split.
  intros now req Hreq.
  assert (G : List.find (reset_query req) (users w) = None).
  { apply find_none_iff. intros u Hu. unfold reset_query.
    rewrite Hreq. apply Hno, String.eqb_neq in Hu. now rewrite Hu. }
  rewrite resetPassword_paths, G. now apply events_since_emit.
Qed.

(** X8: a reset request for the address of a user begins the reset for the
    first user with that address.  When that works the answer is 200
    'Password reset initiated' and the collection is the one the reset
    left; when it is rejected the answer is the classification of the
    error and the collection is unchanged.  Either way the answer is not
    the forbidden error of an unknown address. *)
Theorem requestResetPassword_known_address address w user :
  List.find (request_query address) (users w) = Some user ->
  let w' := (requestResetPassword beginReset address w).2 in
  (forall db, beginReset user (users w) = Resolved db ->
     events_since w w' = [EvSend 200 reset_initiated] /\ users w' = db)
  /\ (forall err, beginReset user (users w) = Rejected err ->
        events_since w w' = events_since w (handleUserError err w).2
        /\ users w' = users w)
  /\ (EvNext reset_denied ∉ events_since w w')
  /\ blacklist w' = blacklist w.
Proof.
  intros Hf. cbv zeta. rewrite requestResetPassword_paths, Hf.
  destruct (beginReset user (users w)) as [db|err]; cbn [snd].
  - rewrite (events_since_emit w [EvSend 200 reset_initiated]) by reflexivity.
    split; [|split; [|split]].
    + intros ? [= <-]. now split.
    + intros ? [=].
    + intros H. apply list_elem_of_singleton in H. discriminate.
    + reflexivity.
  - rewrite events_emits. split; [|split; [|split]].
    + intros ? [=].
    + intros ? [= <-]. rewrite handleUserError_run. cbn [snd].
      now rewrite events_emits.
    + apply classified_forbidden.
    + reflexivity.
Qed.

(** X9: [resetPassword] accepts the token at every instant up to and
    including [resetPasswordExpires]: it saves the user it found with the
    new password assigned ([password] of the saved document is the one of
    the request) and nothing else changed (every other field is the one of
    the user found), never answers that the token expired, and, when the
    save works, answers 200 once and leaves the collection the save
    produced. *)
Theorem resetPassword_within_window now req w user expires :
  List.find (reset_query req) (users w) = Some user ->
  resetPasswordExpires user = Some expires ->
  now <= expires ->
  let doc := set_password (rp_password req) user in
  let w' := (resetPassword now req w).2 in
  (password doc = rp_password req
   /\ uid doc = uid user /\ name doc = name user /\ email doc = email user
   /\ unconfirmedEmail doc = unconfirmedEmail user
   /\ language doc = language user
   /\ resetPasswordToken doc = resetPasswordToken user
   /\ resetPasswordExpires doc = resetPasswordExpires user
   /\ emailConfirmationToken doc = emailConfirmationToken user
   /\ emailIsConfirmed doc = emailIsConfirmed user)
  /\ (exists rest, events_since w w' = EvSave doc :: rest
                   /\ EvNext reset_expired ∉ rest)
  /\ (forall stored db,
         persist doc (users w) = Resolved (stored, db) ->
         events_since w w' = [EvSave doc; EvSend 200 reset_done]
         /\ users w' = db).
Proof.
  intros Hf He Hle. cbv zeta.
  assert (A : isAfter now (resetPasswordExpires user) = false).
  { rewrite He. simpl. apply Z.ltb_ge. exact Hle. }
  split; [repeat (split; [reflexivity|]); reflexivity|].
  rewrite resetPassword_paths, Hf, A, events_save_then_send. split.
  - eexists. split; [reflexivity|].
    destruct (persist _ _) as [[stored db]|err].
    + intros H. apply list_elem_of_singleton in H. discriminate.
    + apply classified_forbidden.
  - intros stored db Hp. unfold save_then_send. now rewrite Hp.
Qed.

(** X10: expiry is final.  A reset request answered as expired at one
    instant is answered as expired at every later instant (the collection
    being the same). *)
Theorem resetPassword_expired_later now now' req w :
  now <= now' ->
  events_since w (resetPassword now req w).2 = [EvNext reset_expired] ->
  events_since w (resetPassword now' req w).2 = [EvNext reset_expired].
Proof.
  intros Hle. rewrite !resetPassword_paths.
  destruct (List.find _ _) as [user|].
  - destruct (isAfter now (resetPasswordExpires user)) eqn:A.
    + assert (A' : isAfter now' (resetPasswordExpires user) = true).
      { unfold isAfter in *. destruct (resetPasswordExpires user); [|discriminate].
        apply Z.ltb_lt in A. apply Z.ltb_lt. lia. }
      now rewrite A'.
    + rewrite events_save_then_send. discriminate.
  - rewrite (events_since_emit w [EvNext reset_denied]) by reflexivity.
    discriminate.
Qed.

(** X11: when the save of the new password is rejected (the password
    fails the model's validation, say), [resetPassword] answers once with
    the classification of the error by [handleUserError], sends no
    success, and the collection is unchanged. *)
Theorem resetPassword_save_rejected now req w user err :
  List.find (reset_query req) (users w) = Some user ->
  isAfter now (resetPasswordExpires user) = false ->
  persist (set_password (rp_password req) user) (users w) = Rejected err ->
  let w' := (resetPassword now req w).2 in
  events_since w w'
  = EvSave (set_password (rp_password req) user)
    :: events_since w (handleUserError err w).2
  /\ length (replies (events_since w w')) = 1%nat
  /\ (EvSend 200 reset_done ∉ events_since w w')
  /\ users w' = users w.
Proof.
  intros Hf A Hp. cbv zeta.
  rewrite resetPassword_paths, Hf, A, events_save_then_send.
  unfold save_then_send. rewrite Hp, handleUserError_run. cbn [snd].
  rewrite events_emits. split; [reflexivity|]. split; [|split; [|reflexivity]].
  - cbn. apply replies_classified.
  - intros H. apply elem_of_cons in H as [H | H]; [discriminate|].
    unfold classified in H.
    destruct (String.eqb _ _).
    + apply list_elem_of_singleton in H. discriminate.
    + destruct (err_errors err).
      * apply list_elem_of_singleton in H. discriminate.
      * apply elem_of_cons in H as [H | H]; [discriminate|].
        apply list_elem_of_singleton in H. discriminate.
Qed.

Lemma blacklist_save_then_send doc done w :
  blacklist (save_then_send doc done w).2 = blacklist w.
Proof.
  unfold save_then_send. destruct (persist _ _) as [[stored db]|err]; reflexivity.
Qed.

(** X12: registration, sign in, the request for a reset, the reset itself
    and the e-mail confirmation never touch the token blacklist.  In
    particular a password set through [resetPassword] revokes no session
    token. *)
Theorem only_signOut_and_updateUser_revoke rreq user address now preq creq w :
  blacklist (registerUser rreq w).2 = blacklist w
  /\ blacklist (signIn user w).2 = blacklist w
  /\ blacklist (requestResetPassword beginReset address w).2 = blacklist w
  /\ blacklist (resetPassword now preq w).2 = blacklist w
  /\ blacklist (confirmEmailAddress creq w).2 = blacklist w.
Proof.
  repeat split.
  - rewrite registerUser_paths. cbv zeta.
    destruct (persist _ _) as [[newUser db]|err]; [|reflexivity].
    destruct (mint _ _); reflexivity.
  - rewrite signIn_paths. destruct (mint _ _); reflexivity.
  - rewrite requestResetPassword_paths.
    destruct (List.find _ _) as [u|]; [|reflexivity].
    destruct (beginReset _ _); reflexivity.
  - rewrite resetPassword_paths.
    destruct (List.find _ _) as [u|]; [|reflexivity].
    destruct (isAfter _ _); [reflexivity | apply blacklist_save_then_send].
  - rewrite confirmEmailAddress_paths.
    destruct (List.find _ _) as [u|]; [apply blacklist_save_then_send | reflexivity].
Qed.

(** X14: a confirmation token is spent by its use.  The document
    [confirmEmailAddress] saves is matched by no later confirmation
    request that carries a non-empty token, whatever its address. *)
Theorem confirmEmailAddress_spends_the_token req w doc later :
  EvSave doc ∈ events_since w (confirmEmailAddress req w).2 ->
  ce_token later <> "" ->
  confirm_query later doc = false.
Proof.
  rewrite confirmEmailAddress_paths.
  destruct (List.find _ _) as [user|].
  - rewrite events_save_then_send. intros H Hne.
    apply elem_of_cons in H as [H | H].
    + injection H as ->. unfold confirm_query. cbn.
      apply andb_false_iff. right.
      destruct (ce_token later); [congruence | reflexivity].
    + exfalso. destruct (persist _ _) as [[stored db]|err].
      * apply list_elem_of_singleton in H. discriminate.
      * pose proof (classified_no_save err) as N.
        unfold no_save in N. rewrite forallb_forall in N.
        apply list_elem_of_In, N in H. discriminate.
  - rewrite (events_since_emit w [EvNext confirmation_denied]) by reflexivity.
    intros H. apply list_elem_of_singleton in H. discriminate.
Qed.
End Resets.

(** ** More on the profile update *)

Section ProfileEdges.
Context {M : Models}.


Lemma replies_rejection_events req err :
  length (replies (rejection_events req err)) = 1%nat.
Proof.
  unfold rejection_events.
  destruct (has_error_on _ _); [reflexivity | apply replies_classified].
Qed.

Lemma saves_none evs : no_save evs = true -> saves evs = [].
Proof.
  unfold no_save, saves. induction evs as [|e evs IH]; [reflexivity|].
  cbn. destruct (is_save e); cbn; [discriminate | exact IH].
Qed.

(** X15: a password or e-mail change without [currentPassword] (missing
    or empty) is answered with the bad request error asking for it, and
    nothing else happens: no field is assigned, nothing is saved, no token
    is blacklisted. *)
Theorem updateUser_current_password_missing req user w :
  truthy (up_email req) && truthy (up_newPassword req) = false ->
  sensitive req = true ->
  truthy (up_currentPassword req) = false ->
  let run := updateUser req user w in
  events_since w (world run.2)
  = [EvNext (BadRequestError
               "To change your password or email address, please supply your current password.")]
  /\ req_user run.2 = user
  /\ users (world run.2) = users w
  /\ blacklist (world run.2) = blacklist w.
Proof.
  intros Hb Hs Hc. cbv zeta. rewrite updateUser_paths, Hb, Hs, Hc. cbn [negb].
  rewrite events_refuse_with. auto.
Qed.

(** X16: a new password that fails [User.validatePassword] stops the whole
    update, whether the current password is right or wrong: the answer is
    the bad request error about the new password, a name or language sent
    along is not assigned, nothing is saved and no token is blacklisted. *)
Theorem updateUser_weak_new_password req user w :
  truthy (up_email req) = false ->
  truthy (up_newPassword req) = true ->
  truthy (up_currentPassword req) = true ->
  passwordRule (the (up_newPassword req)) = false ->
  let run := updateUser req user w in
  events_since w (world run.2)
  = [EvNext (BadRequestError "New password should have at least 8 characters")]
  /\ req_user run.2 = user
  /\ users (world run.2) = users w
  /\ blacklist (world run.2) = blacklist w.
Proof.
  intros He Hn Hc Hr. cbv zeta. rewrite updateUser_paths.
  unfold sensitive. rewrite !truthy_and_strict_ne, He, Hn, Hc, Hr.
  cbn [andb orb negb]. rewrite events_refuse_with. auto.
Qed.

(** X17: when the guards let the call through and the current password is
    wrong, [updateUser] does not stop at the error: after [next] with
    'Current password not correct.' the first callback returns into the
    second one, and the next call the handler makes is [res.send] with
    200 'User successfully saved.' and no user in it.  What follows that
    call is not stated. *)
Theorem updateUser_wrong_password_falls_through req user w :
  truthy (up_email req) && truthy (up_newPassword req) = false ->
  sensitive req = true ->
  truthy (up_currentPassword req) = true ->
  (truthy (up_newPassword req) = true ->
   passwordRule (the (up_newPassword req)) = true) ->
  verifyPassword user (the (up_currentPassword req)) = Resolved false ->
  exists rest,
    events_since w (world (updateUser req user w).2)
    = EvNext (BadRequestError "Current password not correct.")
      :: EvSend 200 (mkBody "Ok" "User successfully saved."
                            (Some (DataMe None)) None)
      :: rest.
Proof.
  intros Hb Hs Hc Hr Hv. rewrite updateUser_paths, Hb, Hs, Hc, Hv. cbn [negb].
  exists [].
  destruct (truthy (up_newPassword req)).
  - rewrite Hr by reflexivity. cbn [andb negb]. apply events_refused.
  - cbn [andb]. apply events_refused.
Qed.

(** X18: a call that asks for neither a password nor an e-mail change does
    not look at [currentPassword]: the run is the same whatever is
    supplied there, a wrong password included. *)
Theorem updateUser_ignores_current_password req user w other :
  sensitive req = false ->
  updateUser (with_currentPassword other req) user w = updateUser req user w.
Proof.
  intros Hs. rewrite !updateUser_paths.
  change (sensitive (with_currentPassword other req)) with (sensitive req).
  change (up_email (with_currentPassword other req)) with (up_email req).
  change (up_newPassword (with_currentPassword other req))
    with (up_newPassword req).
  rewrite Hs.
  destruct (truthy (up_email req) && truthy (up_newPassword req)); reflexivity.
Qed.

(** X19: [updateUser] blacklists at most the token of the request, and
    only in a run that carries a new password and ends with the success
    answer.  A change of name, language or e-mail, or a run that fails,
    blacklists nothing. *)
Theorem updateUser_revokes_only_on_password_change req user w :
  let w' := world (updateUser req user w).2 in
  (blacklist w' = blacklist w \/ blacklist w' = {[ up_jwt req ]} ∪ blacklist w)
  /\ (truthy (up_newPassword req) = false
      \/ ~ succeeded (events_since w w') ->
      blacklist w' = blacklist w).
Proof.
  cbv zeta. rewrite updateUser_paths.
  destruct (truthy (up_email req) && truthy (up_newPassword req)); [auto|].
  assert (Hacc : (blacklist (world (accepted req user w).2) = blacklist w
                  \/ blacklist (world (accepted req user w).2)
                     = {[ up_jwt req ]} ∪ blacklist w)
                 /\ (truthy (up_newPassword req) = false
                     \/ ~ succeeded (events_since w (world (accepted req user w).2)) ->
                     blacklist (world (accepted req user w).2) = blacklist w)).
  { rewrite blacklist_accepted, events_accepted. unfold accepted_events.
    unfold password_applies. rewrite truthy_and_strict_ne.
    destruct (persist _ _) as [[stored db]|err]; [|auto].
    destruct (truthy (up_newPassword req)); [|auto].
    split; [auto|]. intros [H | H]; [discriminate|]. exfalso. apply H.
    exists (advisories req user), stored.
    apply elem_of_app. right. apply list_elem_of_further, list_elem_of_here. }
  destruct (sensitive req); [|exact Hacc].
  destruct (negb (truthy (up_currentPassword req))); [auto|].
  destruct (truthy (up_newPassword req) && negb _); [auto|].
  destruct (verifyPassword _ _) as [[|]|err]; [exact Hacc | auto |].
  rewrite onRejected_run. auto.
Qed.


(** X21: [updateUser] saves at most once in a run. *)
Theorem updateUser_saves_at_most_once req user w :
  (length (saves (events_since w (world (updateUser req user w).2))) <= 1)%nat.
Proof.
  rewrite updateUser_paths.
  destruct (truthy (up_email req) && truthy (up_newPassword req));
    [rewrite events_refuse_with; cbn; lia|].
  assert (Hacc : (length (saves (events_since w (world (accepted req user w).2)))
                  <= 1)%nat).
  { rewrite events_accepted. unfold accepted_events, saves.
    rewrite List.filter_app. cbn [List.filter is_save].
    rewrite length_app. cbn [length].
    assert (T : List.filter is_save
                  match persist (edited req user) (users w) with
                  | Resolved (stored, _) =>
                      [EvSend 200 (saved_body (advisories req user) (Some stored))]
                  | Rejected err => rejection_events req err
                  end = []).
    { destruct (persist _ _) as [[stored db]|err]; [reflexivity|].
      apply saves_none, rejection_events_no_save. }
    fold (saves match persist (edited req user) (users w) with
                | Resolved (stored, _) =>
                    [EvSend 200 (saved_body (advisories req user) (Some stored))]
                | Rejected err => rejection_events req err
                end) in *.
    unfold saves in *. rewrite T.
    destruct (anything_applies req user); cbn; lia. }
  destruct (sensitive req); [|exact Hacc].
  destruct (negb (truthy (up_currentPassword req)));
    [rewrite events_refuse_with; cbn; lia|].
  destruct (truthy (up_newPassword req) && negb _);
    [rewrite events_refuse_with; cbn; lia|].
  destruct (verifyPassword _ _) as [[|]|err]; [exact Hacc | |].
  - rewrite events_refused. cbn. lia.
  - rewrite events_onRejected.
    rewrite (saves_none _ (rejection_events_no_save req err)). cbn. lia.
Qed.

(** X22: [updateUser] leaves no request unanswered: in every run it calls
    [next] with an error or [res.send] at least once. *)
Theorem updateUser_always_answers req user w :
  (1 <= length (replies (events_since w (world (updateUser req user w).2))))%nat.
Proof.
  cbv zeta. rewrite updateUser_paths.
  destruct (truthy (up_email req) && truthy (up_newPassword req));
    [rewrite events_refuse_with; cbn; lia|].
  assert (Hacc : (1 <= length (replies (events_since w (world (accepted req user w).2))))%nat).
  { rewrite events_accepted. unfold accepted_events, replies.
    rewrite List.filter_app. cbn [List.filter is_reply].
    rewrite length_app.
    assert (T : length (List.filter is_reply
                  match persist (edited req user) (users w) with
                  | Resolved (stored, _) =>
                      [EvSend 200 (saved_body (advisories req user) (Some stored))]
                  | Rejected err => rejection_events req err
                  end) = 1%nat).
    { destruct (persist _ _) as [[stored db]|err]; [reflexivity|].
      apply replies_rejection_events. }
    rewrite T. destruct (anything_applies req user); cbn; lia. }
  destruct (sensitive req); [|exact Hacc].
  destruct (negb (truthy (up_currentPassword req)));
    [rewrite events_refuse_with; cbn; lia|].
  destruct (truthy (up_newPassword req) && negb _);
    [rewrite events_refuse_with; cbn; lia|].
  destruct (verifyPassword _ _) as [[|]|err]; [exact Hacc | |].
  - rewrite events_refused. cbn. lia.
  - rewrite events_onRejected.
    rewrite replies_rejection_events. lia.
Qed.

(** X26: the collection changes only through a save.  A run of
    [resetPassword], [confirmEmailAddress] or [updateUser] that saved
    nothing leaves the collection as it was, and [updateUser] then leaves
    [req.user] as it was too. *)
Theorem collection_changes_only_by_save now preq creq req user w :
  (no_save (events_since w (resetPassword now preq w).2) = true ->
   users (resetPassword now preq w).2 = users w)
  /\ (no_save (events_since w (confirmEmailAddress creq w).2) = true ->
      users (confirmEmailAddress creq w).2 = users w)
  /\ (no_save (events_since w (world (updateUser req user w).2)) = true ->
      users (world (updateUser req user w).2) = users w
      /\ req_user (updateUser req user w).2 = user).
Proof.
  split; [|split].
  - rewrite resetPassword_paths.
    destruct (List.find _ _) as [u|]; [|reflexivity].
    destruct (isAfter _ _); [reflexivity|].
    rewrite events_save_then_send. discriminate.
  - rewrite confirmEmailAddress_paths.
    destruct (List.find _ _) as [u|]; [|reflexivity].
    rewrite events_save_then_send. discriminate.
  - rewrite updateUser_paths.
    destruct (truthy (up_email req) && truthy (up_newPassword req)); [auto|].
    assert (Hacc : no_save (events_since w (world (accepted req user w).2)) = true ->
                   users (world (accepted req user w).2) = users w
                   /\ req_user (accepted req user w).2 = user).
    { rewrite events_accepted. unfold accepted_events, no_save.
      rewrite forallb_app. cbn [forallb is_save negb].
      rewrite andb_false_r. discriminate. }
    destruct (sensitive req); [|exact Hacc].
    destruct (negb (truthy (up_currentPassword req))); [auto|].
    destruct (truthy (up_newPassword req) && negb _); [auto|].
    destruct (verifyPassword _ _) as [[|]|err]; [exact Hacc | auto |].
    rewrite onRejected_run. auto.
Qed.
End ProfileEdges.

(** ** Requests in a row *)

Section Sequences.
Context {M : Models}.
Variable beginReset : User -> list User -> Settled (list User).

(** What one request does to the blacklist. *)
Lemma blacklist_serve c w :
  blacklist (serve beginReset c w) = blacklist w
  \/ exists jwt, revokes jwt c = true
                 /\ blacklist (serve beginReset c w) = {[ jwt ]} ∪ blacklist w.
Proof.
  destruct c as [req|user|jwt|address|now req|req|req user]; cbn [serve].
  - left. rewrite registerUser_paths. cbv zeta.
    destruct (persist _ _) as [[newUser db]|err]; [|reflexivity].
    destruct (mint _ _); reflexivity.
  - left. rewrite signIn_paths. destruct (mint _ _); reflexivity.
  - right. exists jwt. split; [apply String.eqb_refl | reflexivity].
  - left. rewrite requestResetPassword_paths.
    destruct (List.find _ _) as [u|]; [|reflexivity].
    destruct (beginReset _ _); reflexivity.
  - left. rewrite resetPassword_paths.
    destruct (List.find _ _) as [u|]; [|reflexivity].
    destruct (isAfter _ _); [reflexivity | apply blacklist_save_then_send].
  - left. rewrite confirmEmailAddress_paths.
    destruct (List.find _ _) as [u|]; [apply blacklist_save_then_send | reflexivity].
  - rewrite updateUser_paths.
    destruct (truthy (up_email req) && truthy (up_newPassword req)); [now left|].
    assert (Hacc : blacklist (world (accepted req user w).2) = blacklist w
                   \/ exists jwt, revokes jwt (Update req user) = true
                                  /\ blacklist (world (accepted req user w).2)
                                     = {[ jwt ]} ∪ blacklist w).
    { rewrite blacklist_accepted. unfold password_applies.
      rewrite truthy_and_strict_ne.
      destruct (persist _ _) as [[stored db]|err]; [|now left].
      destruct (truthy (up_newPassword req)) eqn:T; [|now left].
      right. exists (up_jwt req). cbn [revokes].
      rewrite String.eqb_refl, T. now split. }
    destruct (sensitive req); [|exact Hacc].
    destruct (negb (truthy (up_currentPassword req))); [now left|].
    destruct (truthy (up_newPassword req) && negb _); [now left|].
    destruct (verifyPassword _ _) as [[|]|err]; [exact Hacc | now left |].
    rewrite onRejected_run. now left.
Qed.

(** X24: no request takes a token off the blacklist.  A token that is
    blacklisted stays blacklisted through every sequence of requests
    handled one after the other. *)
Theorem blacklisted_forever cs w jwt :
  isTokenBlacklisted jwt w = true ->
  isTokenBlacklisted jwt (serve_all beginReset cs w) = true.
Proof.
  revert w. induction cs as [|c cs IH]; intros w H; [exact H|].
  cbn [serve_all fold_left]. apply IH.
  unfold isTokenBlacklisted in *. apply bool_decide_eq_true in H.
  apply bool_decide_eq_true.
  destruct (blacklist_serve c w) as [-> | (jwt' & _ & ->)]; [exact H|].
  apply elem_of_union. now right.
Qed.

(** X25: a token comes onto the blacklist only through its own request.
    If a token is not blacklisted before a sequence of requests and is
    blacklisted after it, the sequence holds a sign out made with that
    token or a profile update made with it that carries a new password. *)
Theorem blacklisted_only_by_own_request cs w jwt :
  isTokenBlacklisted jwt w = false ->
  isTokenBlacklisted jwt (serve_all beginReset cs w) = true ->
  exists c, c ∈ cs /\ revokes jwt c = true.
Proof.
  revert w. induction cs as [|c cs IH]; intros w H0 H1.
  - cbn in H1. congruence.
  - cbn [serve_all fold_left] in H1.
    destruct (isTokenBlacklisted jwt (serve beginReset c w)) eqn:Hc.
    + exists c. split; [apply list_elem_of_here|].
      unfold isTokenBlacklisted in *.
      apply bool_decide_eq_true in Hc. apply bool_decide_eq_false in H0.
      destruct (blacklist_serve c w) as [E | (jwt' & Hr & E)];
        rewrite E in Hc; [contradiction|].
      apply elem_of_union in Hc as [Hc | Hc]; [|contradiction].
      apply elem_of_singleton in Hc. now subst.
    + destruct (IH _ Hc H1) as (c' & Hin & Hr).
      exists c'. split; [now apply list_elem_of_further | exact Hr].
Qed.
End Sequences.

(** ** More runs on concrete requests *)

Section MoreExamples.
Import Reference Scenario Mailer.

Lemma registerUser_created_witness :
  tokens_issued_to 3 (events_since world0 (registerUser (M:=models) carol world0).2)
  = ["jwt.c@x.com.0"].
Proof.
  destruct (registerUser_created
              (M:=models) carol world0
              (set_password (hash "longenough3")
                 (set_uid 3 (fresh "carol03" "c@x.com" "longenough3" "en_US")))
              [alice; bob;
               set_password (hash "longenough3")
                 (set_uid 3 (fresh "carol03" "c@x.com" "longenough3" "en_US"))]
              "jwt.c@x.com.0")
    as (_ & _ & Htok).
  - vm_compute. reflexivity.
  - vm_compute. reflexivity.
  - exact Htok.
Defined.

Lemma registerUser_save_rejected_witness :
  first_reply
    (events_since world0
       (registerUser (M:=models)
          (mkRegisterRequest "alice99" "a@x.com" "longenough9" "en_US") world0).2)
  = Some (EvNext (BadRequestError "Duplicate user detected")).
Proof.
  destruct (registerUser_save_rejected
              (M:=models)
              (mkRegisterRequest "alice99" "a@x.com" "longenough9" "en_US")
              world0 (mkJsError "Duplicate user detected" None))
    as (_ & _ & _ & _ & Hdup).
  - vm_compute. reflexivity.
  - apply Hdup. reflexivity.
Defined.

Lemma requestResetPassword_unknown_address_witness :
  events_since world0
    (requestResetPassword begin_reset "nobody@x.com" world0).2
  = [EvNext reset_denied].
Proof.
  destruct (requestResetPassword_unknown_address
              (M:=models) begin_reset "nobody@x.com" world0)
    as (Hev & _).
  - intros u Hu. cbn in Hu. pick Hu; discriminate.
  - exact Hev.
Defined.

Lemma requestResetPassword_known_address_witness :
  events_since world0
    (requestResetPassword begin_reset "a@x.com" world0).2
  = [EvSend 200 reset_initiated]
  /\ events_since world0
       (requestResetPassword no_mail "a@x.com" world0).2
     = [EvNotify (mkJsError "connect ECONNREFUSED" None);
        EvNext (InternalServerError "connect ECONNREFUSED")].
Proof.
  split.
  - destruct (requestResetPassword_known_address
                begin_reset "a@x.com" world0 alice eq_refl)
      as (Hok & _).
    eapply Hok. reflexivity.
  - destruct (requestResetPassword_known_address
                no_mail "a@x.com" world0 alice eq_refl)
      as (_ & Hrej & _).
    destruct (Hrej (mkJsError "connect ECONNREFUSED" None) eq_refl) as [-> _].
    vm_compute. reflexivity.
Defined.

Lemma resetPassword_within_window_witness :
  events_since resetting
    (resetPassword (M:=models) 1000
                   (mkResetRequest "longenough2" "reset-4711" "a@x.com")
                   resetting).2
  = [EvSave (set_password "longenough2" alice_resetting);
     EvSend 200 reset_done]
  /\ password (set_password "longenough2" alice_resetting) = "longenough2"
  /\ email (set_password "longenough2" alice_resetting) = "a@x.com".
Proof.
  destruct (resetPassword_within_window
              (M:=models) 1000
              (mkResetRequest "longenough2" "reset-4711" "a@x.com")
              resetting alice_resetting 43200000 eq_refl eq_refl)
    as ((Hpw & _ & _ & Hmail & _) & _ & Hdone).
  - lia.
  - split; [|split; [exact Hpw | exact Hmail]].
    eapply Hdone. vm_compute. reflexivity.
Defined.

Lemma resetPassword_expired_later_witness :
  events_since resetting
    (resetPassword (M:=models) 50000000
                   (mkResetRequest "longenough2" "reset-4711" "a@x.com")
                   resetting).2
  = [EvNext reset_expired].
Proof.
  apply (resetPassword_expired_later
           (M:=models) 43200001 50000000
           (mkResetRequest "longenough2" "reset-4711" "a@x.com") resetting).
  - lia.
  - vm_compute. reflexivity.
Defined.

Lemma resetPassword_save_rejected_witness :
  events_since resetting
    (resetPassword (M:=models_offline) 1000
                   (mkResetRequest "longenough2" "reset-4711" "a@x.com")
                   resetting).2
  = [EvSave (set_password "longenough2" alice_resetting);
     EvNotify (mkJsError "topology was destroyed" None);
     EvNext (InternalServerError "topology was destroyed")]
  /\ users (resetPassword (M:=models_offline) 1000
                          (mkResetRequest "longenough2" "reset-4711" "a@x.com")
                          resetting).2
     = [alice_resetting; bob].
Proof.
  destruct (resetPassword_save_rejected
              (M:=models_offline) 1000
              (mkResetRequest "longenough2" "reset-4711" "a@x.com")
              resetting alice_resetting
              (mkJsError "topology was destroyed" None)
              eq_refl eq_refl eq_refl)
    as (Hev & _ & _ & Hdb).
  split; [|exact Hdb]. rewrite Hev. vm_compute. reflexivity.
Defined.


Lemma confirmEmailAddress_spends_the_token_witness :
  confirm_query (mkConfirmRequest "confirm:b@x.com" "b@x.com")
    (set_emailIsConfirmed true (set_emailConfirmationToken "" alice_moving))
  = false.
Proof.
  apply (confirmEmailAddress_spends_the_token
           (M:=models) (mkConfirmRequest "confirm:b@x.com" "b@x.com") moving).
  - vm_compute. apply list_elem_of_here.
  - discriminate.
Defined.

Lemma updateUser_current_password_missing_witness :
  events_since world0
    (world (updateUser (M:=models)
              (mkUpdateRequest None None None None (Some "longenough2")
                               "jwt.a@x.com.0") alice world0).2)
  = [EvNext (BadRequestError
               "To change your password or email address, please supply your current password.")].
Proof.
  destruct (updateUser_current_password_missing
              (M:=models)
              (mkUpdateRequest None None None None (Some "longenough2")
                               "jwt.a@x.com.0") alice world0
              eq_refl eq_refl eq_refl)
    as (Hev & _).
  exact Hev.
Defined.

Lemma updateUser_weak_new_password_witness :
  events_since world0
    (world (updateUser (M:=models) wrong_and_short alice world0).2)
  = [EvNext (BadRequestError "New password should have at least 8 characters")]
  /\ events_since world0
       (world (updateUser (M:=models)
                 (mkUpdateRequest (Some "alice02") None None (Some "longenough1")
                                  (Some "short") "jwt.a@x.com.0") alice world0).2)
     = [EvNext (BadRequestError "New password should have at least 8 characters")].
Proof.
  split.
  - destruct (updateUser_weak_new_password
                (M:=models) wrong_and_short alice world0
                eq_refl eq_refl eq_refl eq_refl) as (Hev & _).
    exact Hev.
  - destruct (updateUser_weak_new_password
                (M:=models)
                (mkUpdateRequest (Some "alice02") None None (Some "longenough1")
                                 (Some "short") "jwt.a@x.com.0") alice world0
                eq_refl eq_refl eq_refl eq_refl) as (Hev & _).
    exact Hev.
Defined.

Lemma updateUser_wrong_password_falls_through_witness :
  exists rest,
    events_since world0
      (world (updateUser (M:=models) wrong_password alice world0).2)
    = EvNext (BadRequestError "Current password not correct.")
      :: EvSend 200 (mkBody "Ok" "User successfully saved."
                            (Some (DataMe None)) None)
      :: rest.
Proof.
  apply (updateUser_wrong_password_falls_through
           (M:=models) wrong_password alice world0);
    reflexivity.
Defined.

Lemma updateUser_ignores_current_password_witness :
  updateUser (M:=models)
    (mkUpdateRequest (Some "alice02") None None (Some "not my password") None
                     "jwt.a@x.com.0") alice world0
  = updateUser (M:=models)
      (mkUpdateRequest (Some "alice02") None None None None "jwt.a@x.com.0")
      alice world0.
Proof.
  apply (updateUser_ignores_current_password
           (M:=models)
           (mkUpdateRequest (Some "alice02") None None None None "jwt.a@x.com.0")
           alice world0 (Some "not my password")).
  reflexivity.
Defined.


Lemma updateUser_unchanged_is_saved_witness :
  exists rest,
    events_since world0
      (world (updateUser (M:=models) change_nothing alice world0).2)
    = EvSend 200 nothing_changed_body :: EvSave alice :: rest.
Proof.
  apply (updateUser_unchanged_is_saved (M:=models) change_nothing alice world0);
    reflexivity.
Defined.

Lemma blacklisted_forever_witness :
  isTokenBlacklisted "jwt.a@x.com.0"
    (serve_all (M:=models) begin_reset
       [SignIn alice; RequestReset "a@x.com"; Update change_profile alice;
        SignOut "jwt.a@x.com.1"]
       (signOut "jwt.a@x.com.0" world0).2)
  = true.
Proof.
  apply (blacklisted_forever (M:=models) begin_reset).
  vm_compute. reflexivity.
Defined.

Lemma blacklisted_only_by_own_request_witness :
  exists c,
    c ∈ [SignIn alice; Update change_password alice; Confirm (mkConfirmRequest "x" "y")]
    /\ revokes "jwt.a@x.com.0" c = true.
Proof.
  apply (blacklisted_only_by_own_request (M:=models) begin_reset _ world0).
  - vm_compute. reflexivity.
  - vm_compute. reflexivity.
Defined.
End MoreExamples.
